(** * BudgetMate: aggregate maintenance, rollups and notifications

    A shallow embedding of the BudgetMate backend (Express handlers over
    Mongoose models) and the properties of its budget aggregates, monthly
    rollups and notification ordering.

    Conventions of the embedding
    - Money amounts are JavaScript Numbers restricted to integers, on which
      [+] and [-] are exact; they are embedded as [Z].  Ratios go through
      [Num.Number], which keeps the non-finite results of a division.
    - A MongoDB collection whose documents are never removed (budgets and
      expenses are only soft-deleted) is a list, the position of a document
      being its [_id]; JavaScript objects used as dictionaries are finite
      maps or, where the order of the keys is observable, association lists.
    - A handler is a function from the database to a status code and the
      database it leaves behind.  Requests are taken after the
      express-validator chain has accepted them. *)

From Stdlib Require Import ZArith QArith Qround Qabs Lia.
From stdpp Require Import gmap list strings.

Local Open Scope Z_scope.

(** ** JavaScript Numbers as far as ratios need them *)

Module Num.

(** A Number is a finite value, an infinity or NaN (signed zeros are not
    distinguished). *)
Inductive Number :=
| Fin (q : Q)
| PosInf
| NegInf
| NaN.

Definition ofZ (z : Z) : Number := Fin (inject_Z z).

Definition neg (a : Number) : Number :=
  match a with
  | Fin q => Fin (- q)%Q
  | PosInf => NegInf
  | NegInf => PosInf
  | NaN => NaN
  end.

(** The infinity carrying the sign of [q], NaN when [q] is zero. *)
Definition signed_inf (q : Q) : Number :=
  match (q ?= 0)%Q with
  | Gt => PosInf
  | Lt => NegInf
  | Eq => NaN
  end.

(** [a / b] *)
Definition div (a b : Number) : Number :=
  match a, b with
  | NaN, _ | _, NaN => NaN
  | Fin x, Fin y => if Qeq_bool y 0 then signed_inf x else Fin (x / y)%Q
  | Fin _, (PosInf | NegInf) => Fin 0
  | PosInf, Fin y => if Qle_bool 0 y then PosInf else NegInf
  | NegInf, Fin y => if Qle_bool 0 y then NegInf else PosInf
  | (PosInf | NegInf), (PosInf | NegInf) => NaN
  end.

(** [a * b] *)
Definition mul (a b : Number) : Number :=
  match a, b with
  | NaN, _ | _, NaN => NaN
  | Fin x, Fin y => Fin (x * y)%Q
  | Fin x, PosInf | PosInf, Fin x => signed_inf x
  | Fin x, NegInf | NegInf, Fin x => neg (signed_inf x)
  | PosInf, PosInf | NegInf, NegInf => PosInf
  | PosInf, NegInf | NegInf, PosInf => NegInf
  end.

(** [a >= b]: false as soon as one side is NaN. *)
Definition ge (a b : Number) : bool :=
  match a, b with
  | NaN, _ | _, NaN => false
  | Fin x, Fin y => Qle_bool y x
  | PosInf, _ => true
  | _, NegInf => true
  | _, _ => false
  end.

(** [a > b] *)
Definition gt (a b : Number) : bool :=
  match a, b with
  | NaN, _ | _, NaN => false
  | Fin x, Fin y => negb (Qle_bool x y)
  | PosInf, PosInf | NegInf, NegInf => false
  | PosInf, _ => true
  | _, NegInf => true
  | _, _ => false
  end.

Definition lt (a b : Number) : bool := gt b a.

(** [Math.round]: the nearest integer, halves going up; infinities and NaN
    are returned as they are. *)
Definition Math_round (a : Number) : Number :=
  match a with
  | Fin q => Fin (inject_Z (Qfloor (q + (1 # 2))%Q))
  | other => other
  end.

Definition is_finite (a : Number) : bool :=
  match a with
  | Fin _ => true
  | _ => false
  end.

End Num.

(** ** Documents *)

(** ObjectIds are opaque keys; documents are numbered. *)
Abbreviation UserId := nat (only parsing).
Abbreviation BudgetId := nat (only parsing).
Abbreviation ExpenseId := nat (only parsing).

(** The category enumeration shared by budgets, expenses and analytics. *)
Inductive Category :=
| Shopping | Food | Transport | Entertainment
| Healthcare | Education | Home | Other.

#[global] Instance Category_eq_dec : EqDecision Category.
Proof. solve_decision. Defined.

(** What the handlers read of a [Date]: [getFullYear()] and [getMonth()],
    the latter counted from 0. *)
Record Date := mkDate { getFullYear : Z; getMonth : nat }.

Module Budget.
(** models/Budget.js *)
Record t := mk {
  title : string;
  amount : Z;
  spent : Z;
  remaining : Z;
  category : Category;
  user : UserId;
  isActive : bool
}.

(** [budgetSchema.pre('save')]: [this.remaining = this.amount - this.spent]. *)
Definition pre_save (b : t) : t :=
  mk (title b) (amount b) (spent b) (amount b - spent b)
     (category b) (user b) (isActive b).

(** [$inc: { spent: d }] applied by an update query: only [spent] is
    written and no save middleware runs. *)
Definition inc_spent (d : Z) (b : t) : t :=
  mk (title b) (amount b) (spent b + d) (remaining b)
     (category b) (user b) (isActive b).

Definition set_isActive (v : bool) (b : t) : t :=
  mk (title b) (amount b) (spent b) (remaining b)
     (category b) (user b) v.

(** The [spendingPercentage] virtual. *)
Definition spendingPercentage (b : t) : Num.Number :=
  if amount b =? 0 then Num.ofZ 0
  else Num.Math_round
         (Num.mul (Num.div (Num.ofZ (spent b)) (Num.ofZ (amount b)))
                  (Num.ofZ 100)).
End Budget.

Module Expense.
(** models/Expense.js; [name], [receipt] and [description] take no part in
    any aggregate and are left out. *)
Record t := mk {
  amount : Z;
  date : Date;
  category : Category;
  user : UserId;
  budget : option BudgetId;
  isActive : bool
}.

Definition set_isActive (v : bool) (e : t) : t :=
  mk (amount e) (date e) (category e) (user e) (budget e) v.
End Expense.

Module ExpenseAnalytics.
(** models/ExpenseAnalytics.js *)
Record t := mk {
  category : Category;
  actual : Z;
  budget : Z;
  lastYear : Z;
  month : nat;
  year : Z;
  user : UserId
}.

(** The [variance] virtual. *)
Definition variance (a : t) : Z := budget a - actual a.

(** The [variancePercentage] virtual. *)
Definition variancePercentage (a : t) : Num.Number :=
  if budget a =? 0 then Num.ofZ 0
  else Num.Math_round
         (Num.mul (Num.div (Num.ofZ (variance a)) (Num.ofZ (budget a)))
                  (Num.ofZ 100)).
End ExpenseAnalytics.

Module SavingsExpense.
(** The expense schema of models/SavingsPlan.js. *)
Record t := mk {
  category : string;
  perMonth : Z;
  perYear : Z;
  user : UserId
}.

(** [expenseSchema.pre('save')]: [this.perYear = this.perMonth * 12]. *)
Definition pre_save (e : t) : t :=
  mk (category e) (perMonth e) (perMonth e * 12) (user e).
End SavingsExpense.

(** ** The database and the queries the handlers issue *)

Record Db := mkDb {
  budgets : list Budget.t;
  expenses : list Expense.t
}.

Inductive Status :=
| Ok200
| Created201
| BadRequest400
| NotFound404.

Module Query.

(** [Budget.findOne({ _id: id, user: u, isActive: true })] *)
Definition Budget_findOne (db : Db) (id : BudgetId) (u : UserId)
  : option Budget.t :=
  match budgets db !! id with
  | Some b =>
      if bool_decide (Budget.user b = u) && Budget.isActive b
      then Some b else None
  | None => None
  end.

(** [Budget.findByIdAndUpdate(id, { $inc: { spent: d } })]: an update
    query; a missing id matches nothing. *)
Definition Budget_inc_spent (id : BudgetId) (d : Z) (db : Db) : Db :=
  mkDb (alter (Budget.inc_spent d) id (budgets db)) (expenses db).

(** [Expense.create(e)] *)
Definition Expense_create (e : Expense.t) (db : Db) : Db :=
  mkDb (budgets db) (expenses db ++ [e]).

(** [Expense.findOne({ _id: id, user: u, isActive: true })] *)
Definition Expense_findOne (db : Db) (id : ExpenseId) (u : UserId)
  : option Expense.t :=
  match expenses db !! id with
  | Some e =>
      if bool_decide (Expense.user e = u) && Expense.isActive e
      then Some e else None
  | None => None
  end.

(** Writing a document back at its id ([doc.save()] and the [$set] of
    [findByIdAndUpdate]). *)
Definition Expense_put (id : ExpenseId) (e : Expense.t) (db : Db) : Db :=
  mkDb (budgets db) (<[id := e]> (expenses db)).

End Query.

(** ** routes/budget.js *)

Module BudgetRoutes.
Import Query.

Record NewBudget := mkNewBudget {
  nb_title : string;
  nb_amount : Z;
  nb_category : Category
}.

(** [POST /api/budgets]: [Budget.create] fills the defaults ([spent] 0,
    [isActive] true) and runs the save middleware. *)
Definition post_budget (u : UserId) (req : NewBudget) (db : Db)
  : Status * Db :=
  let doc := Budget.pre_save
               (Budget.mk (nb_title req) (nb_amount req) 0
                          (nb_amount req - 0) (nb_category req) u true) in
  (Created201, mkDb (budgets db ++ [doc]) (expenses db)).

(** [DELETE /api/budgets/:id]: soft delete through [budget.save()]. *)
Definition delete_budget (u : UserId) (id : BudgetId) (db : Db)
  : Status * Db :=
  match Budget_findOne db id u with
  | None => (NotFound404, db)
  | Some budget =>
      let budget := Budget.set_isActive false budget in
      (Ok200,
       mkDb (<[id := Budget.pre_save budget]> (budgets db)) (expenses db))
  end.

End BudgetRoutes.

(** ** routes/expense.js *)

Module ExpenseRoutes.
Import Query.

(** The body of [POST /api/expenses] (and one entry of the bulk body). *)
Record NewExpense := mkNewExpense {
  ne_amount : Z;
  ne_category : Category;
  ne_date : option Date;
  ne_budget : option BudgetId
}.

(** The document handed to [Expense.create]; [now] is [new Date()]. *)
Definition new_document (now : Date) (u : UserId) (req : NewExpense)
  : Expense.t :=
  Expense.mk (ne_amount req) (default now (ne_date req)) (ne_category req)
             u (ne_budget req) true.

(** The guard [if (budget) { ...; if (!budgetExists) return 400 }]. *)
Definition invalid_budget (u : UserId) (ref : option BudgetId) (db : Db)
  : bool :=
  match ref with
  | Some b =>
      match Budget_findOne db b u with
      | Some _ => false
      | None => true
      end
  | None => false
  end.

(** [POST /api/expenses] *)
Definition post_expense (now : Date) (u : UserId) (req : NewExpense)
           (db : Db) : Status * Db :=
  if invalid_budget u (ne_budget req) db then (BadRequest400, db)
  else
    let db := Expense_create (new_document now u req) db in
    let db :=
      match ne_budget req with
      | Some b => Budget_inc_spent b (ne_amount req) db
      | None => db
      end in
    (Created201, db).

(** *** Bulk creation *)

(** [budgetUpdates], a plain object from budget id to a running total; its
    entries are later visited in insertion order. *)
Abbreviation Updates := (list (BudgetId * Z)) (only parsing).

Fixpoint obj_get (k : BudgetId) (o : Updates) : option Z :=
  match o with
  | [] => None
  | (k', v) :: o => if bool_decide (k' = k) then Some v else obj_get k o
  end.

Fixpoint obj_set (k : BudgetId) (v : Z) (o : Updates) : Updates :=
  match o with
  | [] => [(k, v)]
  | (k', v') :: o =>
      if bool_decide (k' = k) then (k, v) :: o else (k', v') :: obj_set k v o
  end.

(** [if (!budgetUpdates[b]) budgetUpdates[b] = 0; budgetUpdates[b] += a]:
    a missing entry and a zero entry are both falsy. *)
Definition track (b : BudgetId) (a : Z) (o : Updates) : Updates :=
  let o :=
    match obj_get b o with
    | Some v => if v =? 0 then obj_set b 0 o else o
    | None => obj_set b 0 o
    end in
  obj_set b (default 0 (obj_get b o) + a) o.

(** How the loop over the submitted entries ends: by the early
    [return res.status(400)] or by running to completion. *)
Inductive LoopEnd :=
| Rejected (db : Db)
| Completed (db : Db) (budgetUpdates : Updates).

Fixpoint bulk_loop (now : Date) (u : UserId) (reqs : list NewExpense)
         (db : Db) (budgetUpdates : Updates) : LoopEnd :=
  match reqs with
  | [] => Completed db budgetUpdates
  | req :: reqs =>
      if invalid_budget u (ne_budget req) db then Rejected db
      else
        let budgetUpdates :=
          match ne_budget req with
          | Some b => track b (ne_amount req) budgetUpdates
          | None => budgetUpdates
          end in
        let db := Expense_create (new_document now u req) db in
        bulk_loop now u reqs db budgetUpdates
  end.

(** [for (const [budgetId, totalSpent] of Object.entries(budgetUpdates))] *)
Definition apply_updates (o : Updates) (db : Db) : Db :=
  foldl (fun db '(b, total) => Budget_inc_spent b total db) db o.

(** [POST /api/expenses/bulk] *)
Definition post_bulk (now : Date) (u : UserId) (reqs : list NewExpense)
           (db : Db) : Status * Db :=
  match bulk_loop now u reqs db [] with
  | Rejected db => (BadRequest400, db)
  | Completed db budgetUpdates => (Created201, apply_updates budgetUpdates db)
  end.

(** *** Update *)

(** The fields of the body of [PUT /api/expenses/:id] that reach an
    aggregate. *)
Record Patch := mkPatch {
  p_amount : option Z;
  p_budget : option BudgetId
}.

(** The operands of the handler's [!==]: the id in the body is a JSON
    string, the id held by the document is an ObjectId, or undefined when
    the expense has no budget. *)
Inductive JsValue :=
| JsString (id : BudgetId)
| JsObjectId (id : BudgetId)
| JsUndefined.

(** Strict equality holds for equal strings and for undefined with itself;
    operands of different types are never strictly equal, and objects are
    compared by identity (the handler never compares a field with itself). *)
Definition strict_eq (a b : JsValue) : bool :=
  match a, b with
  | JsString x, JsString y => bool_decide (x = y)
  | JsUndefined, JsUndefined => true
  | _, _ => false
  end.

Definition stored_ref (e : Expense.t) : JsValue :=
  match Expense.budget e with
  | Some b => JsObjectId b
  | None => JsUndefined
  end.

(** [Expense.findByIdAndUpdate(id, req.body)]: the fields present in the
    body overwrite the stored ones. *)
Definition apply_patch (body : Patch) (e : Expense.t) : Expense.t :=
  Expense.mk (default (Expense.amount e) (p_amount body))
             (Expense.date e) (Expense.category e) (Expense.user e)
             (match p_budget body with
              | Some b => Some b
              | None => Expense.budget e
              end)
             (Expense.isActive e).

(** The block under "Handle budget amount adjustment if amount changed". *)
Definition adjust_budgets (body : Patch) (expense : Expense.t) (db : Db)
  : Db :=
  match p_amount body with
  | Some amount =>
      if negb (amount =? Expense.amount expense) then
        let amountDifference := amount - Expense.amount expense in
        let db :=
          match Expense.budget expense with
          | Some old => Budget_inc_spent old amountDifference db
          | None => db
          end in
        match p_budget body with
        | Some new =>
            if negb (strict_eq (JsString new) (stored_ref expense))
            then Budget_inc_spent new amount db
            else db
        | None => db
        end
      else db
  | None => db
  end.

(** [PUT /api/expenses/:id] *)
Definition put_expense (u : UserId) (id : ExpenseId) (body : Patch)
           (db : Db) : Status * Db :=
  match Expense_findOne db id u with
  | None => (NotFound404, db)
  | Some expense =>
      let db := adjust_budgets body expense db in
      (Ok200, Expense_put id (apply_patch body expense) db)
  end.

(** [DELETE /api/expenses/:id] *)
Definition delete_expense (u : UserId) (id : ExpenseId) (db : Db)
  : Status * Db :=
  match Expense_findOne db id u with
  | None => (NotFound404, db)
  | Some expense =>
      let db :=
        match Expense.budget expense with
        | Some b => Budget_inc_spent b (- Expense.amount expense) db
        | None => db
        end in
      (Ok200, Expense_put id (Expense.set_isActive false expense) db)
  end.

End ExpenseRoutes.

(** ** routes/savings.js: planned expenses *)

Module SavingsRoutes.

(** Documents of the SavingsExpense collection can be removed, so the
    collection is a map from ids to documents. *)

Record NewSavingsExpense := mkNewSavingsExpense {
  ns_category : string;
  ns_perMonth : Z
}.

Record SavingsPatch := mkSavingsPatch {
  sp_category : option string;
  sp_perMonth : option Z
}.

(** [POST /api/savings/expenses]: [SavingsExpense.create] evaluates the
    [perYear] default and runs the save middleware; the new document gets an
    id not yet in use. *)
Definition post_expense (u : UserId) (req : NewSavingsExpense)
           (coll : gmap nat SavingsExpense.t)
  : Status * nat * gmap nat SavingsExpense.t :=
  let id := fresh (dom coll) in
  let doc := SavingsExpense.pre_save
               (SavingsExpense.mk (ns_category req) (ns_perMonth req)
                                  (ns_perMonth req * 12) u) in
  (Created201, id, <[id := doc]> coll).

(** The [$set] of the body's fields. *)
Definition apply_patch (body : SavingsPatch) (e : SavingsExpense.t)
  : SavingsExpense.t :=
  SavingsExpense.mk (default (SavingsExpense.category e) (sp_category body))
                    (default (SavingsExpense.perMonth e) (sp_perMonth body))
                    (SavingsExpense.perYear e)
                    (SavingsExpense.user e).

(** [PUT /api/savings/expenses/:id]:
    [SavingsExpense.findOneAndUpdate({ _id, user }, req.body)], an update
    query on which no save middleware runs. *)
Definition put_expense (u : UserId) (id : nat) (body : SavingsPatch)
           (coll : gmap nat SavingsExpense.t)
  : Status * gmap nat SavingsExpense.t :=
  match coll !! id with
  | Some e =>
      if bool_decide (SavingsExpense.user e = u)
      then (Ok200, <[id := apply_patch body e]> coll)
      else (NotFound404, coll)
  | None => (NotFound404, coll)
  end.

End SavingsRoutes.

(** ** Monthly breakdowns *)

Module Monthly.

(** [for (let month = 1; month <= 12; month++)
      monthlyBreakdown[month] = zero] *)
Definition init {V} (zero : V) : gmap nat V :=
  foldl (fun o month => <[month := zero]> o) ∅ (seq 1 12).

(** *** [GET /api/expenses/summary/overview] *)

Record Spend := mkSpend { totalSpent : Z; count : Z }.

(** One turn of [expenses.forEach]; reading a field of a missing bucket
    throws, which is [None]. *)
Definition add_expense (currentYear : Z) (acc : option (gmap nat Spend))
           (expense : Expense.t) : option (gmap nat Spend) :=
  o ← acc;
  let expenseDate := Expense.date expense in
  if getFullYear expenseDate =? currentYear then
    let month := (getMonth expenseDate + 1)%nat in
    row ← o !! month;
    Some (<[month := mkSpend (totalSpent row + Expense.amount expense)
                             (count row + 1)]> o)
  else Some o.

Definition expense_monthlyBreakdown (currentYear : Z)
           (expenses : list Expense.t) : option (gmap nat Spend) :=
  foldl (add_expense currentYear) (Some (init (mkSpend 0 0))) expenses.

(** *** [GET /api/analytics/summary] *)

Record Variance := mkVariance {
  budget : Z;
  actual : Z;
  variance : Z;
  lastYear : Z
}.

Definition add_item (acc : option (gmap nat Variance))
           (item : ExpenseAnalytics.t) : option (gmap nat Variance) :=
  o ← acc;
  row ← o !! ExpenseAnalytics.month item;
  Some (<[ExpenseAnalytics.month item :=
            mkVariance (budget row + ExpenseAnalytics.budget item)
                       (actual row + ExpenseAnalytics.actual item)
                       (variance row)
                       (lastYear row + ExpenseAnalytics.lastYear item)]> o).

(** [item.variance = item.budget - item.actual] *)
Definition set_variance (row : Variance) : Variance :=
  mkVariance (budget row) (actual row) (budget row - actual row)
             (lastYear row).

Definition analytics_monthlyBreakdown (analytics : list ExpenseAnalytics.t)
  : option (gmap nat Variance) :=
  match foldl add_item (Some (init (mkVariance 0 0 0 0))) analytics with
  | Some o => Some (set_variance <$> o)
  | None => None
  end.

End Monthly.

(** ** Severities and the engine's sort *)

Inductive Severity := warning | info | alert.

#[global] Instance Severity_eq_dec : EqDecision Severity.
Proof. solve_decision. Defined.

Section ArraySort.
Context {A : Type} (compareFn : A -> A -> Z).

(** [Array.prototype.sort(compareFn)] belongs to the engine; the language
    requires it to be stable.  It is embedded as insertion from the right: an
    element goes in front of the first one it does not compare above. *)
Fixpoint sort_insert (x : A) (l : list A) : list A :=
  match l with
  | [] => [x]
  | y :: l' => if compareFn x y <=? 0 then x :: l else y :: sort_insert x l'
  end.

Definition Array_sort (l : list A) : list A := foldr sort_insert [] l.

End ArraySort.

(** "Every warning precedes every info": no info stands before a warning. *)
Definition warnings_first (types : list Severity) : Prop :=
  forall i j : nat,
    (i < j)%nat -> types !! i = Some info -> types !! j = Some warning -> False.

(** ** [GET /api/dashboard/notifications] *)

Module Dashboard.

(** The text of a notification is rendered from these parts ([toFixed(1)]
    prints the utilization). *)
Inductive Message :=
| BudgetUsed (title : string) (utilization : Num.Number) (advice : bool)
| HighExpense (category : Category).

Inductive Data :=
| BudgetData (budgetId : BudgetId) (utilization : Num.Number)
| ExpenseData (maxAmount : Num.Number) (avgAmount : Num.Number).

Record Notification := mkNotification {
  type : Severity;
  title : string;
  message : Message;
  category : Category;
  data : Data
}.

(** [(budget.spent / budget.amount) * 100] *)
Definition utilization (budget : Budget.t) : Num.Number :=
  Num.mul (Num.div (Num.ofZ (Budget.spent budget))
                   (Num.ofZ (Budget.amount budget)))
          (Num.ofZ 100).

(** One turn of [budgets.forEach]; a budget comes with its [_id]. *)
Definition budget_notice (notifications : list Notification)
           (entry : BudgetId * Budget.t) : list Notification :=
  let '(id, budget) := entry in
  let utilization := utilization budget in
  if Num.ge utilization (Num.ofZ 90) then
    notifications ++
      [mkNotification warning "Budget Alert"
         (BudgetUsed (Budget.title budget) utilization true)
         (Budget.category budget)
         (BudgetData id (Num.Math_round utilization))]
  else if Num.ge utilization (Num.ofZ 80) then
    notifications ++
      [mkNotification info "Budget Notice"
         (BudgetUsed (Budget.title budget) utilization false)
         (Budget.category budget)
         (BudgetData id (Num.Math_round utilization))]
  else notifications.

(** [categoryExpenses]: category to the amounts seen, keys in insertion
    order. *)
Fixpoint push_amount (c : Category) (a : Z) (o : list (Category * list Z))
  : list (Category * list Z) :=
  match o with
  | [] => [(c, [] ++ [a])]
  | (c', amounts) :: o =>
      if bool_decide (c' = c) then (c', amounts ++ [a]) :: o
      else (c', amounts) :: push_amount c a o
  end.

Definition group_by_category (monthlyExpenses : list Expense.t)
  : list (Category * list Z) :=
  foldl (fun o expense =>
           push_amount (Expense.category expense) (Expense.amount expense) o)
        [] monthlyExpenses.

(** [Math.max(...amounts)]; of nothing it is [-Infinity]. *)
Definition Math_max (amounts : list Z) : Num.Number :=
  match amounts with
  | [] => Num.NegInf
  | a :: amounts => Num.ofZ (foldl Z.max a amounts)
  end.

(** One turn of [Object.entries(categoryExpenses).forEach]. *)
Definition expense_notice (notifications : list Notification)
           (entry : Category * list Z) : list Notification :=
  let '(category, amounts) := entry in
  if (0 <? length amounts)%nat then
    let avgAmount :=
      Num.div (Num.ofZ (foldl Z.add 0 amounts))
              (Num.ofZ (Z.of_nat (length amounts))) in
    let maxAmount := Math_max amounts in
    if Num.gt maxAmount (Num.mul avgAmount (Num.ofZ 2)) then
      notifications ++
        [mkNotification info "High Expense Notice" (HighExpense category)
           category (ExpenseData maxAmount (Num.Math_round avgAmount))]
    else notifications
  else notifications.

(** The array as it stands before the final sort. *)
Definition collect (budgets : list (BudgetId * Budget.t))
           (monthlyExpenses : list Expense.t) : list Notification :=
  let notifications := foldl budget_notice [] budgets in
  foldl expense_notice notifications (group_by_category monthlyExpenses).

(** [const priority = { warning: 2, info: 1 }] *)
Definition priority (s : Severity) : option Z :=
  match s with
  | warning => Some 2
  | info => Some 1
  | alert => None
  end.

(** [priority[b.type] - priority[a.type]]; with an operand undefined the
    difference is NaN, which the sort reads as 0. *)
Definition by_priority (a b : Notification) : Z :=
  match priority (type b), priority (type a) with
  | Some pb, Some pa => pb - pa
  | _, _ => 0
  end.

Definition notifications (budgets : list (BudgetId * Budget.t))
           (monthlyExpenses : list Expense.t) : list Notification :=
  Array_sort by_priority (collect budgets monthlyExpenses).

(** [Budget.find({ user: u, isActive: true })], each budget with its [_id]. *)
Definition Budget_find (u : UserId) (db : Db) : list (BudgetId * Budget.t) :=
  filter (fun entry => Budget.user entry.2 = u
                       /\ Budget.isActive entry.2 = true)
         (imap pair (budgets db)).

(** [date >= new Date(now.getFullYear(), now.getMonth(), 1)] *)
Definition since_startOfMonth (now date : Date) : bool :=
  (getFullYear now <? getFullYear date)
  || ((getFullYear date =? getFullYear now)
      && (getMonth now <=? getMonth date)%nat).

(** [Expense.find({ user: u, isActive: true, date: { $gte: startOfMonth } })] *)
Definition Expense_find_month (now : Date) (u : UserId) (db : Db)
  : list Expense.t :=
  filter (fun e => Expense.user e = u
                   /\ Expense.isActive e = true
                   /\ since_startOfMonth now (Expense.date e) = true)
         (expenses db).

(** The handler: fetch, collect, sort. *)
Definition get_notifications (now : Date) (u : UserId) (db : Db)
  : list Notification :=
  notifications (Budget_find u db) (Expense_find_month now u db).

End Dashboard.

(** ** [GET /api/analytics/insights] *)

Module Analytics.

Inductive Subject := OfCategory (c : Category) | Overall.

(** An insight; [percent] is the figure its message prints. *)
Record Insight := mkInsight {
  type : Severity;
  category : Subject;
  percent : Num.Number
}.

(** [Math.abs] *)
Definition Math_abs (a : Num.Number) : Num.Number :=
  match a with
  | Num.Fin q => Num.Fin (Qabs q)
  | Num.NegInf => Num.PosInf
  | other => other
  end.

(** [item.budget > 0 ? (item.budget - item.actual) / item.budget * 100 : 0] *)
Definition variancePercentage (item : ExpenseAnalytics.t) : Num.Number :=
  if 0 <? ExpenseAnalytics.budget item then
    Num.mul
      (Num.div (Num.ofZ (ExpenseAnalytics.budget item
                         - ExpenseAnalytics.actual item))
               (Num.ofZ (ExpenseAnalytics.budget item)))
      (Num.ofZ 100)
  else Num.ofZ 0.

(** One turn of [analytics.forEach]. *)
Definition variance_insight (insights : list Insight)
           (item : ExpenseAnalytics.t) : list Insight :=
  let variancePercentage := variancePercentage item in
  if Num.gt variancePercentage (Num.ofZ 20) then
    insights ++ [mkInsight warning
                   (OfCategory (ExpenseAnalytics.category item))
                   (Math_abs variancePercentage)]
  else if Num.lt variancePercentage (Num.ofZ (-20)) then
    insights ++ [mkInsight alert
                   (OfCategory (ExpenseAnalytics.category item))
                   (Math_abs variancePercentage)]
  else insights.

(** [categorySpending]: category to its running total, keys in insertion
    order. *)
Fixpoint add_spending (c : Category) (a : Z) (o : list (Category * Z))
  : list (Category * Z) :=
  match o with
  | [] => [(c, 0 + a)]
  | (c', total) :: o =>
      if bool_decide (c' = c) then (c', total + a) :: o
      else (c', total) :: add_spending c a o
  end.

Definition categorySpending (expenses : list Expense.t)
  : list (Category * Z) :=
  foldl (fun o expense =>
           add_spending (Expense.category expense) (Expense.amount expense) o)
        [] expenses.

(** One turn of [Object.entries(categorySpending).forEach]. *)
Definition concentration_insight (totalSpent : Z) (insights : list Insight)
           (entry : Category * Z) : list Insight :=
  let '(category, amount) := entry in
  let percentage :=
    Num.mul (Num.div (Num.ofZ amount) (Num.ofZ totalSpent)) (Num.ofZ 100) in
  if Num.gt percentage (Num.ofZ 40) then
    insights ++ [mkInsight info (OfCategory category) percentage]
  else insights.

(** [totalBudget > 0 ? (totalSpentFromBudgets / totalBudget) * 100 : 0] *)
Definition budgetUtilization (budgets : list Budget.t) : Num.Number :=
  let totalBudget := foldl (fun sum b => sum + Budget.amount b) 0 budgets in
  let totalSpentFromBudgets :=
    foldl (fun sum b => sum + Budget.spent b) 0 budgets in
  if 0 <? totalBudget then
    Num.mul (Num.div (Num.ofZ totalSpentFromBudgets) (Num.ofZ totalBudget))
            (Num.ofZ 100)
  else Num.ofZ 0.

(** The [insights] array of the response: filled by the three rules in turn
    and returned as it is. *)
Definition insights (analytics : list ExpenseAnalytics.t)
           (expenses : list Expense.t) (budgets : list Budget.t)
  : list Insight :=
  let insights := foldl variance_insight [] analytics in
  let categorySpending := categorySpending expenses in
  let totalSpent := foldl (fun sum amount => sum + amount) 0
                          (categorySpending.*2) in
  let insights :=
    foldl (concentration_insight totalSpent) insights categorySpending in
  let budgetUtilization := budgetUtilization budgets in
  if Num.gt budgetUtilization (Num.ofZ 80) then
    insights ++ [mkInsight warning Overall budgetUtilization]
  else insights.

(** [ExpenseAnalytics.find({ user: u, year: currentYear })] over the rows of
    the analytics collection. *)
Definition ExpenseAnalytics_find (u : UserId) (currentYear : Z)
           (rows : list ExpenseAnalytics.t) : list ExpenseAnalytics.t :=
  filter (fun a => ExpenseAnalytics.user a = u
                   /\ ExpenseAnalytics.year a = currentYear) rows.

(** [Expense.find] with [date] from January 1st of the current year up to,
    and excluding, the first day of the month after the current one. *)
Definition Expense_find_year (now : Date) (u : UserId) (db : Db)
  : list Expense.t :=
  filter (fun e => Expense.user e = u
                   /\ Expense.isActive e = true
                   /\ getFullYear (Expense.date e) = getFullYear now
                   /\ (getMonth (Expense.date e) <= getMonth now)%nat)
         (expenses db).

(** [Budget.find({ user: u, isActive: true })] *)
Definition Budget_find (u : UserId) (db : Db) : list Budget.t :=
  filter (fun b => Budget.user b = u /\ Budget.isActive b = true)
         (budgets db).

(** The handler: the three fetches, then the rules. *)
Definition get_insights (now : Date) (u : UserId)
           (rows : list ExpenseAnalytics.t) (db : Db) : list Insight :=
  insights (ExpenseAnalytics_find u (getFullYear now) rows)
           (Expense_find_year now u db)
           (Budget_find u db).

End Analytics.

(** ** Shared shapes: grouping by category, find-then-save *)

Section Grouping.
Context {A V : Type} (key : A -> Category) (zero : V) (add : V -> A -> V).

(** [if (!o[key]) o[key] = zero; o[key] = add(o[key], x)] on an object from
    categories to summaries, its keys in insertion order. *)
Fixpoint group_add (x : A) (o : list (Category * V)) : list (Category * V) :=
  match o with
  | [] => [(key x, add zero x)]
  | (c, v) :: o =>
      if bool_decide (c = key x) then (c, add v x) :: o
      else (c, v) :: group_add x o
  end.

(** [items.forEach(x => ...)] over an object that starts empty. *)
Definition group_by (items : list A) : list (Category * V) :=
  foldl (fun o x => group_add x o) [] items.

End Grouping.

Section FindThenSave.
Context {A : Type} (matches : A -> bool) (change : A -> A).

(** [doc = await Model.findOne(query); if (doc) { change(doc); doc.save() }]:
    the first matching document is rewritten in place; [None] when there is
    none. *)
Fixpoint update_first (docs : list A) : option (list A) :=
  match docs with
  | [] => None
  | doc :: docs =>
      if matches doc then Some (change doc :: docs)
      else cons doc <$> update_first docs
  end.

End FindThenSave.

(** ** routes/budget.js: update and summary *)

Module BudgetViews.
Import Query.

(** The validated fields of the body of [PUT /api/budgets/:id] ([icon] and
    [color] are not part of the embedded document). *)
Record BudgetPatch := mkBudgetPatch {
  bp_title : option string;
  bp_amount : option Z;
  bp_category : option Category
}.

(** The [$set] of the body's fields. *)
Definition apply_patch (body : BudgetPatch) (b : Budget.t) : Budget.t :=
  Budget.mk (default (Budget.title b) (bp_title body))
            (default (Budget.amount b) (bp_amount body))
            (Budget.spent b) (Budget.remaining b)
            (default (Budget.category b) (bp_category body))
            (Budget.user b) (Budget.isActive b).


(** [GET /api/budgets/:id] *)
Definition get_budget (u : UserId) (id : BudgetId) (db : Db)
  : Status * option Budget.t :=
  match Budget_findOne db id u with
  | None => (NotFound404, None)
  | Some budget => (Ok200, Some budget)
  end.

Record Totals := mkTotals {
  totalBudget : Z;
  totalSpent : Z;
  totalRemaining : Z;
  count : Z
}.

(** One turn of [budgets.forEach] on the entry of the budget's category. *)
Definition add_budget (t : Totals) (budget : Budget.t) : Totals :=
  mkTotals (totalBudget t + Budget.amount budget)
           (totalSpent t + Budget.spent budget)
           (totalRemaining t + Budget.remaining budget)
           (count t + 1).

(** The [overview] and the [categoryBreakdown] of
    [GET /api/budgets/summary/overview], from the budgets fetched. *)
Definition overview (budgets : list Budget.t) : Totals :=
  mkTotals (foldl (fun sum budget => sum + Budget.amount budget) 0 budgets)
           (foldl (fun sum budget => sum + Budget.spent budget) 0 budgets)
           (foldl (fun sum budget => sum + Budget.remaining budget) 0 budgets)
           (Z.of_nat (length budgets)).

Definition categoryBreakdown (budgets : list Budget.t)
  : list (Category * Totals) :=
  group_by Budget.category (mkTotals 0 0 0 0) add_budget budgets.

Definition get_summary (u : UserId) (db : Db)
  : Totals * list (Category * Totals) :=
  let budgets := Analytics.Budget_find u db in
  (overview budgets, categoryBreakdown budgets).

End BudgetViews.

(** ** routes/expense.js: summary *)

Module ExpenseViews.

(** [overview] and [categoryBreakdown] of
    [GET /api/expenses/summary/overview], from the expenses fetched; an entry
    is [totalSpent] and [count]. *)
Definition add_expense (t : Monthly.Spend) (expense : Expense.t)
  : Monthly.Spend :=
  Monthly.mkSpend (Monthly.totalSpent t + Expense.amount expense)
                  (Monthly.count t + 1).

Definition overview (expenses : list Expense.t) : Monthly.Spend :=
  Monthly.mkSpend
    (foldl (fun sum expense => sum + Expense.amount expense) 0 expenses)
    (Z.of_nat (length expenses)).

Definition categoryBreakdown (expenses : list Expense.t)
  : list (Category * Monthly.Spend) :=
  group_by Expense.category (Monthly.mkSpend 0 0) add_expense expenses.

End ExpenseViews.

(** ** routes/analytics.js: upsert, summary and trends *)

Module AnalyticsRoutes.

(** The body of [POST /api/analytics]. *)
Record NewAnalytics := mkNewAnalytics {
  na_category : Category;
  na_actual : Z;
  na_budget : Z;
  na_lastYear : option Z;
  na_month : nat;
  na_year : Z
}.

(** The query [{ user, category, month, year }]. *)
Definition same_key (u : UserId) (req : NewAnalytics)
           (a : ExpenseAnalytics.t) : bool :=
  bool_decide (ExpenseAnalytics.user a = u)
  && bool_decide (ExpenseAnalytics.category a = na_category req)
  && bool_decide (ExpenseAnalytics.month a = na_month req)
  && bool_decide (ExpenseAnalytics.year a = na_year req).

(** The assignments of the "update existing" branch; [lastYear || 0]. *)
Definition overwrite (req : NewAnalytics) (a : ExpenseAnalytics.t)
  : ExpenseAnalytics.t :=
  ExpenseAnalytics.mk (ExpenseAnalytics.category a) (na_actual req)
                      (na_budget req) (default 0 (na_lastYear req))
                      (ExpenseAnalytics.month a) (ExpenseAnalytics.year a)
                      (ExpenseAnalytics.user a).

(** The document of the "create new" branch. *)
Definition document (u : UserId) (req : NewAnalytics) : ExpenseAnalytics.t :=
  ExpenseAnalytics.mk (na_category req) (na_actual req) (na_budget req)
                      (default 0 (na_lastYear req)) (na_month req)
                      (na_year req) u.

(** [POST /api/analytics] on the analytics collection. *)
Definition post_analytics (u : UserId) (req : NewAnalytics)
           (rows : list ExpenseAnalytics.t) : list ExpenseAnalytics.t :=
  match update_first (same_key u req) (overwrite req) rows with
  | Some rows => rows
  | None => rows ++ [document u req]
  end.

(** *** [GET /api/analytics/summary] *)

Record CategoryVariance := mkCategoryVariance {
  budget : Z;
  actual : Z;
  variance : Z;
  lastYear : Z;
  variancePercentage : Num.Number
}.

Definition add_item (t : CategoryVariance) (item : ExpenseAnalytics.t)
  : CategoryVariance :=
  mkCategoryVariance (budget t + ExpenseAnalytics.budget item)
                     (actual t + ExpenseAnalytics.actual item)
                     (variance t)
                     (lastYear t + ExpenseAnalytics.lastYear item)
                     (variancePercentage t).

(** [budget > 0 ? Math.round((variance / budget) * 100) : 0] *)
Definition percentage (variance budget : Z) : Num.Number :=
  if 0 <? budget then
    Num.Math_round
      (Num.mul (Num.div (Num.ofZ variance) (Num.ofZ budget)) (Num.ofZ 100))
  else Num.ofZ 0.

(** "Calculate variance for each category" *)
Definition close_category (t : CategoryVariance) : CategoryVariance :=
  let variance := budget t - actual t in
  mkCategoryVariance (budget t) (actual t) variance (lastYear t)
                     (percentage variance (budget t)).

Definition categoryBreakdown (analytics : list ExpenseAnalytics.t)
  : list (Category * CategoryVariance) :=
  prod_map id close_category
    <$> group_by ExpenseAnalytics.category
                 (mkCategoryVariance 0 0 0 0 (Num.ofZ 0)) add_item analytics.

Record Overview := mkOverview {
  totalBudget : Z;
  totalActual : Z;
  totalVariance : Z;
  totalLastYear : Z;
  overallPercentage : Num.Number
}.

Definition overview (analytics : list ExpenseAnalytics.t) : Overview :=
  let totalBudget :=
    foldl (fun sum item => sum + ExpenseAnalytics.budget item) 0 analytics in
  let totalActual :=
    foldl (fun sum item => sum + ExpenseAnalytics.actual item) 0 analytics in
  let totalVariance := totalBudget - totalActual in
  let totalLastYear :=
    foldl (fun sum item => sum + ExpenseAnalytics.lastYear item) 0 analytics in
  mkOverview totalBudget totalActual totalVariance totalLastYear
             (percentage totalVariance totalBudget).

(** *** [GET /api/analytics/trends]: [yearlyTrends] *)

Record YearTotals := mkYearTotals {
  y_totalBudget : Z;
  y_totalActual : Z;
  y_totalVariance : Z;
  y_totalLastYear : Z
}.

(** [startYear = currentYear - parseInt(years) + 1] *)
Definition startYear (currentYear years : Z) : Z := currentYear - years + 1.

(** [for (let year = startYear; year <= currentYear; year++)
      yearlyTrends[year] = zero] *)
Definition init_years (currentYear years : Z) : gmap Z YearTotals :=
  foldl (fun o year => <[year := mkYearTotals 0 0 0 0]> o) ∅
        (seqZ (startYear currentYear years)
              (currentYear - startYear currentYear years + 1)).

(** One turn of [analytics.forEach]; a year without an entry throws. *)
Definition add_year (acc : option (gmap Z YearTotals))
           (item : ExpenseAnalytics.t) : option (gmap Z YearTotals) :=
  o ← acc;
  row ← o !! ExpenseAnalytics.year item;
  Some (<[ExpenseAnalytics.year item :=
            mkYearTotals
              (y_totalBudget row + ExpenseAnalytics.budget item)
              (y_totalActual row + ExpenseAnalytics.actual item)
              (y_totalVariance row
               + (ExpenseAnalytics.budget item - ExpenseAnalytics.actual item))
              (y_totalLastYear row + ExpenseAnalytics.lastYear item)]> o).

(** [yearlyTrends] from the rows the query
    [{ user, year: { $gte: startYear } }] returns; [None] is the exception
    that the handler turns into a 500. *)
Definition yearlyTrends (currentYear years : Z)
           (analytics : list ExpenseAnalytics.t)
  : option (gmap Z YearTotals) :=
  foldl add_year (Some (init_years currentYear years)) analytics.

End AnalyticsRoutes.

(** ** routes/savings.js: budget, deletion and summary *)

Module SavingsPlan.

(** models/SavingsPlan.js: the budget schema and, of the income schema, the
    fields the summary reads. *)
Record SavingsBudget := mkSavingsBudget {
  monthlyBudget : Z;
  sb_user : UserId
}.


Definition owned_by (u : UserId) (b : SavingsBudget) : bool :=
  bool_decide (sb_user b = u).

Definition set_monthlyBudget (v : Z) (b : SavingsBudget) : SavingsBudget :=
  mkSavingsBudget v (sb_user b).

(** [POST /api/savings/budget]: update the user's budget or create it. *)
Definition post_budget (u : UserId) (monthlyBudget : Z)
           (coll : list SavingsBudget) : list SavingsBudget :=
  match update_first (owned_by u) (set_monthlyBudget monthlyBudget) coll with
  | Some coll => coll
  | None => coll ++ [mkSavingsBudget monthlyBudget u]
  end.

(** [GET /api/savings/budget]: [SavingsBudget.findOne({ user })]. *)
Definition get_budget (u : UserId) (coll : list SavingsBudget)
  : option SavingsBudget :=
  List.find (owned_by u) coll.

(** [DELETE /api/savings/expenses/:id]:
    [SavingsExpense.findOneAndDelete({ _id, user })]. *)
Definition delete_expense (u : UserId) (id : nat)
           (coll : gmap nat SavingsExpense.t)
  : Status * gmap nat SavingsExpense.t :=
  match coll !! id with
  | Some e =>
      if bool_decide (SavingsExpense.user e = u)
      then (Ok200, delete id coll)
      else (NotFound404, coll)
  | None => (NotFound404, coll)
  end.



End SavingsPlan.

(** * Vocabulary of the properties *)

(** ** The budget aggregate *)

Module Aggregate.
Import Query ExpenseRoutes.

(** The total the aggregate is meant to track: the amounts of the active
    expenses that reference budget [b]. *)
Definition linked (b : BudgetId) (e : Expense.t) : Z :=
  if Expense.isActive e && bool_decide (Expense.budget e = Some b)
  then Expense.amount e else 0.

Definition linked_total (b : BudgetId) (es : list Expense.t) : Z :=
  foldr (fun e sum => linked b e + sum) 0 es.

(** [spent] of budget [b], when the budget exists. *)
Definition spent_of (db : Db) (b : BudgetId) : option Z :=
  Budget.spent <$> budgets db !! b.

Definition remaining_of (db : Db) (b : BudgetId) : option Z :=
  Budget.remaining <$> budgets db !! b.

(** Every budget's [spent] is the total of its active expenses. *)
Definition conserved (db : Db) : Prop :=
  forall b s, spent_of db b = Some s -> s = linked_total b (expenses db).

(** The requests that act on expenses. *)
Inductive Request :=
| Create (now : Date) (u : UserId) (req : NewExpense)
| Update (u : UserId) (id : ExpenseId) (body : Patch)
| Delete (u : UserId) (id : ExpenseId).

Definition handle (r : Request) (db : Db) : Status * Db :=
  match r with
  | Create now u req => post_expense now u req db
  | Update u id body => put_expense u id body db
  | Delete u id => delete_expense u id db
  end.

(** The database after a sequence of requests, served one after the other. *)
Definition serve (rs : list Request) (db : Db) : Db :=
  foldl (fun db r => (handle r db).2) db rs.


End Aggregate.

(** ** Orders and breakdowns *)

Module Order.

Abbreviation is_warning :=
  (fun n : Dashboard.Notification => Dashboard.type n = warning).
Abbreviation is_info :=
  (fun n : Dashboard.Notification => Dashboard.type n = info).

(** [totalSpent] of the insights handler. *)
Definition totalSpent (expenses : list Expense.t) : Z :=
  foldl (fun sum amount => sum + amount) 0
        ((Analytics.categorySpending expenses).*2).

End Order.

Module Density.

(** The keys of a breakdown are the twelve months. *)
Definition twelve_months {V} (o : gmap nat V) : Prop :=
  forall k : nat, is_Some (o !! k) <-> (1 <= k <= 12)%nat.

(** [expense] falls in the bucket of month [k] of [currentYear]. *)
Definition in_month (currentYear : Z) (k : nat) (expense : Expense.t)
  : Prop :=
  getFullYear (Expense.date expense) = currentYear
  /\ (getMonth (Expense.date expense) + 1)%nat = k.

End Density.

(** ** Concrete databases and requests *)

Module Scenario.
Import Query BudgetRoutes ExpenseRoutes.

Definition today : Date := mkDate 2025 2.
Definition alice : UserId := 7%nat.
Definition bob : UserId := 8%nat.

(** Scenario A: one budget of 1000, then an expense of 150 against it. *)
Definition one_budget : Db :=
  (post_budget alice (mkNewBudget "Shopping Budget" 1000 Shopping)
               (mkDb [] [])).2.

Definition groceries : NewExpense :=
  mkNewExpense 150 Food None (Some 0%nat).

(** Scenario B: budgets of 500 and 300, an expense of 100 on the first. *)
Definition two_budgets : Db :=
  (post_budget alice (mkNewBudget "B2" 300 Transport)
     (post_budget alice (mkNewBudget "B1" 500 Food) (mkDb [] [])).2).2.

Definition ticket : NewExpense :=
  mkNewExpense 100 Food None (Some 0%nat).

Definition two_budgets_one_expense : Db :=
  (post_expense today alice ticket two_budgets).2.

(** The expense moves to the second budget, its amount untouched. *)
Definition move_to_second : Patch := mkPatch None (Some 1%nat).

(** The expense moves to the second budget and its amount becomes 150. *)
Definition move_and_raise : Patch := mkPatch (Some 150) (Some 1%nat).

(** Budgets 0 (alice, active), 1 (bob, active) and 2 (alice, soft-deleted). *)
Definition mixed_budgets : Db :=
  (delete_budget alice 2
     (post_budget alice (mkNewBudget "Old" 50 Other)
        (post_budget bob (mkNewBudget "Bob" 200 Home)
           (post_budget alice (mkNewBudget "Mine" 100 Food)
                        (mkDb [] [])).2).2).2).2.

Definition on_budget (b : BudgetId) : NewExpense :=
  mkNewExpense 10 Food None (Some b).

Definition unlinked : NewExpense := mkNewExpense 10 Food None None.

(** One expense of 100 on food in March 2025. *)
Definition lunch : Expense.t := Expense.mk 100 today Food alice None true.

(** An analytics row for food in March 2025. *)
Definition food_plan : ExpenseAnalytics.t :=
  ExpenseAnalytics.mk Food 80 100 70 3 2025 alice.

(** A budget of amount 0 is created and an expense of 50 is recorded
    against it; [untouched_zero] is the budget before the expense. *)
Definition gifts_budget : Db :=
  (post_budget alice (mkNewBudget "Gifts" 0 Other) (mkDb [] [])).2.

Definition gifts_overspent : Db :=
  (post_expense today alice (mkNewExpense 50 Other None (Some 0%nat))
                gifts_budget).2.

Definition overspent_zero : Budget.t :=
  Budget.mk "Gifts" 0 50 0 Other alice true.

Definition untouched_zero : Budget.t :=
  Budget.mk "Gifts" 0 0 0 Other alice true.

(** A food budget of 100 against which one expense of 90 is recorded. *)
Definition food_nearly_spent : Db :=
  (post_expense today alice (mkNewExpense 90 Food None (Some 0%nat))
     (post_budget alice (mkNewBudget "Food" 100 Food) (mkDb [] [])).2).2.

(** A planned expense and an update of its monthly amount. *)
Definition rent : SavingsRoutes.NewSavingsExpense :=
  SavingsRoutes.mkNewSavingsExpense "Rent" 100.

Definition raise_rent : SavingsRoutes.SavingsPatch :=
  SavingsRoutes.mkSavingsPatch None (Some 200).

End Scenario.

(** ** Further vocabulary and cases *)

Module Cases.
Import Query BudgetRoutes ExpenseRoutes.

(** The amount of the expense becomes 150, its budget is left alone. *)
Definition raise_only : Patch := mkPatch (Some 150) None.

(** [expense] is counted in month [k] of [currentYear]. *)
Definition in_monthb (currentYear : Z) (k : nat) (expense : Expense.t)
  : bool :=
  (getFullYear (Expense.date expense) =? currentYear)
  && (getMonth (Expense.date expense) + 1 =? k)%nat.

(** Total and number of the expenses counted in month [k]. *)
Definition month_total (currentYear : Z) (k : nat) (es : list Expense.t) : Z :=
  foldr (fun e sum =>
           if in_monthb currentYear k e then Expense.amount e + sum else sum)
        0 es.

Definition month_count (currentYear : Z) (k : nat) (es : list Expense.t) : Z :=
  foldr (fun e n => if in_monthb currentYear k e then 1 + n else n) 0 es.






(** What identifies an analytics row. *)
Definition analytics_key (a : ExpenseAnalytics.t)
  : UserId * Category * nat * Z :=
  (ExpenseAnalytics.user a, ExpenseAnalytics.category a,
   ExpenseAnalytics.month a, ExpenseAnalytics.year a).

(** Food in March 2025, planned at 100, spent 80; then spent 120. *)
Definition food_march : AnalyticsRoutes.NewAnalytics :=
  AnalyticsRoutes.mkNewAnalytics Food 80 100 None 3 2025.

Definition food_march_again : AnalyticsRoutes.NewAnalytics :=
  AnalyticsRoutes.mkNewAnalytics Food 120 100 (Some 70) 3 2025.

(** An analytics row for food in March 2031. *)
Definition food_2031 : ExpenseAnalytics.t :=
  ExpenseAnalytics.mk Food 80 100 70 3 2031 Scenario.alice.





(** The savings collection holding the one planned expense of
    [Scenario.rent]. *)
Definition rent_only : gmap nat SavingsExpense.t :=
  (SavingsRoutes.post_expense Scenario.alice Scenario.rent ∅).2.



(** The total of field [f] over the analytics rows of month [k]. *)
Definition rows_total (f : ExpenseAnalytics.t -> Z) (k : nat)
           (rows : list ExpenseAnalytics.t) : Z :=
  foldr (fun a sum =>
           if (ExpenseAnalytics.month a =? k)%nat then f a + sum else sum)
        0 rows.

End Cases.

(** * Properties *)

(** ** The budget aggregate *)

Module AggregateFacts.
Import Query BudgetRoutes ExpenseRoutes Aggregate.

(** *** Queries *)


Lemma Budget_findOne_None db id u :
  Budget_findOne db id u = None <->
  budgets db !! id = None \/
  exists B, budgets db !! id = Some B /\
            (Budget.user B <> u \/ Budget.isActive B = false).
Proof.
  unfold Budget_findOne. destruct (budgets db !! id) as [b|].
  - destruct (bool_decide _) eqn:Hu; simpl.
    + apply bool_decide_eq_true in Hu.
      destruct (Budget.isActive b) eqn:Ha; split; try done.
      * intros [|[B [[= <-] [|]]]]; congruence.
      * intros _. right. exists b. auto.
    + apply bool_decide_eq_false in Hu. split; [|done].
      intros _. right. exists b. auto.
  - split; auto.
Qed.

Lemma Expense_findOne_Some db id u e :
  Expense_findOne db id u = Some e ->
  expenses db !! id = Some e /\ Expense.user e = u /\ Expense.isActive e = true.
Proof.
  unfold Expense_findOne. destruct (expenses db !! id) as [x|]; [|done].
  destruct (bool_decide _) eqn:Hu; simpl; [|done].
  destruct (Expense.isActive x) eqn:Ha; [|done].
  intros [= ->]. by apply bool_decide_eq_true in Hu.
Qed.

Lemma spent_of_inc db b d b' :
  spent_of (Budget_inc_spent b d db) b' =
  (fun s => if bool_decide (b = b') then s + d else s) <$> spent_of db b'.
Proof.
  unfold spent_of, Budget_inc_spent. simpl.
  destruct (decide (b = b')) as [->|Hne].
  - rewrite list_lookup_alter_eq, bool_decide_eq_true_2 by done.
    destruct (budgets db !! b'); reflexivity.
  - rewrite list_lookup_alter_ne, bool_decide_eq_false_2 by done.
    destruct (budgets db !! b'); reflexivity.
Qed.

(** An [$inc] does not write [remaining]. *)
Lemma remaining_of_inc db b d b' :
  remaining_of (Budget_inc_spent b d db) b' = remaining_of db b'.
Proof.
  unfold remaining_of, Budget_inc_spent. simpl.
  destruct (decide (b = b')) as [->|Hne].
  - rewrite list_lookup_alter_eq. destruct (budgets db !! b'); reflexivity.
  - rewrite list_lookup_alter_ne by done. reflexivity.
Qed.

Lemma invalid_budget_expenses u ref bs es es' :
  invalid_budget u ref (mkDb bs es) = invalid_budget u ref (mkDb bs es').
Proof. reflexivity. Qed.

(** *** Totals under the writes the handlers make *)




Lemma expenses_inc_ref db (ref : option BudgetId) d :
  expenses (match ref with
            | Some b => Budget_inc_spent b d db
            | None => db
            end) = expenses db.
Proof. by destruct ref. Qed.



(** *** Creation, amount edits and deletion keep the aggregate exact *)





End AggregateFacts.

(** ** Creation against a budget *)

Module CreateFacts.
Import Query BudgetRoutes ExpenseRoutes Aggregate AggregateFacts.

(** C4: an expense whose budget reference names a budget that is missing,
    owned by someone else or inactive is answered with 400 and the database
    is left as it was, so no expense is stored and no [spent] changes; an
    expense without a budget reference is stored and the budgets are left as
    they were. *)
Theorem post_expense_budget_guard now u req db :
  (forall b,
      ne_budget req = Some b ->
      budgets db !! b = None \/
      (exists B, budgets db !! b = Some B /\
                 (Budget.user B <> u \/ Budget.isActive B = false)) ->
      post_expense now u req db = (BadRequest400, db))
  /\ (ne_budget req = None ->
      post_expense now u req db =
      (Created201,
       mkDb (budgets db) (expenses db ++ [new_document now u req]))).
Proof.
  split.
  - intros b Hb Hbad. apply Budget_findOne_None in Hbad.
    unfold post_expense, invalid_budget. by rewrite Hb, Hbad.
  - intros Hb. unfold post_expense, invalid_budget. by rewrite Hb.
Qed.

Lemma post_expense_budget_guard_witness :
  post_expense Scenario.today Scenario.alice (Scenario.on_budget 5)
               Scenario.mixed_budgets
  = (BadRequest400, Scenario.mixed_budgets)
  /\ post_expense Scenario.today Scenario.alice (Scenario.on_budget 1)
                  Scenario.mixed_budgets
     = (BadRequest400, Scenario.mixed_budgets)
  /\ post_expense Scenario.today Scenario.alice (Scenario.on_budget 2)
                  Scenario.mixed_budgets
     = (BadRequest400, Scenario.mixed_budgets)
  /\ post_expense Scenario.today Scenario.alice Scenario.unlinked
                  Scenario.mixed_budgets
     = (Created201,
        mkDb (budgets Scenario.mixed_budgets)
             (expenses Scenario.mixed_budgets
                ++ [new_document Scenario.today Scenario.alice
                                 Scenario.unlinked])).
Proof.
  split; [|split; [|split]].
  - apply (proj1 (post_expense_budget_guard
                    Scenario.today Scenario.alice (Scenario.on_budget 5)
                    Scenario.mixed_budgets) 5%nat eq_refl).
    left. reflexivity.
  - apply (proj1 (post_expense_budget_guard
                    Scenario.today Scenario.alice (Scenario.on_budget 1)
                    Scenario.mixed_budgets) 1%nat eq_refl).
    right. eexists. split; [reflexivity|]. left. discriminate.
  - apply (proj1 (post_expense_budget_guard
                    Scenario.today Scenario.alice (Scenario.on_budget 2)
                    Scenario.mixed_budgets) 2%nat eq_refl).
    right. eexists. split; [reflexivity|]. right. reflexivity.
  - apply (proj2 (post_expense_budget_guard
                    Scenario.today Scenario.alice Scenario.unlinked
                    Scenario.mixed_budgets) eq_refl).
Defined.

(** *** Bulk creation *)

Lemma bulk_loop_rejected now u pre bad rest bs es0 es upd :
  Forall (fun r => invalid_budget u (ne_budget r) (mkDb bs es0) = false) pre ->
  invalid_budget u (ne_budget bad) (mkDb bs es0) = true ->
  bulk_loop now u (pre ++ bad :: rest) (mkDb bs es) upd =
  Rejected (mkDb bs (es ++ map (new_document now u) pre)).
Proof.
  intros Hpre Hbad. revert es upd.
  induction Hpre as [|r pre Hr Hpre IH]; intros es upd; simpl.
  - rewrite (invalid_budget_expenses _ _ _ _ es0), Hbad.
    by rewrite app_nil_r.
  - rewrite (invalid_budget_expenses _ _ _ _ es0), Hr.
    unfold Expense_create. simpl. rewrite IH. by rewrite <- app_assoc.
Qed.

(** C9: when an entry of a bulk request references an invalid budget and the
    entries before it are acceptable, the answer is 400, the entries before it
    have been stored and stay stored, and no budget has been written: the
    increments are applied only after the loop has run to its end. *)
Theorem post_bulk_partial_commit now u pre bad rest b db :
  Forall (fun r => invalid_budget u (ne_budget r) db = false) pre ->
  ne_budget bad = Some b ->
  Budget_findOne db b u = None ->
  post_bulk now u (pre ++ bad :: rest) db =
  (BadRequest400,
   mkDb (budgets db) (expenses db ++ map (new_document now u) pre)).
Proof.
  intros Hpre Hb Hnone. unfold post_bulk. destruct db as [bs es].
  rewrite (bulk_loop_rejected _ _ _ _ _ _ es); [done|done|].
  unfold invalid_budget. by rewrite Hb, Hnone.
Qed.

Lemma post_bulk_partial_commit_witness :
  post_bulk Scenario.today Scenario.alice
            ([Scenario.on_budget 0; Scenario.unlinked]
               ++ Scenario.on_budget 1 :: [Scenario.on_budget 0])
            Scenario.mixed_budgets
  = (BadRequest400,
     mkDb (budgets Scenario.mixed_budgets)
          (expenses Scenario.mixed_budgets
             ++ map (new_document Scenario.today Scenario.alice)
                    [Scenario.on_budget 0; Scenario.unlinked])).
Proof.
  apply (post_bulk_partial_commit _ _ _ _ _ 1%nat).
  - repeat constructor.
  - reflexivity.
  - reflexivity.
Defined.

End CreateFacts.

(** ** Deletion *)

Module DeleteFacts.
Import Query BudgetRoutes ExpenseRoutes Aggregate AggregateFacts.

Lemma delete_expense_hides u id db :
  Expense_findOne (delete_expense u id db).2 id u = None.
Proof.
  unfold delete_expense.
  destruct (Expense_findOne db id u) as [e|] eqn:Hf; simpl; [|done].
  apply Expense_findOne_Some in Hf as (Hid & _ & _).
  unfold Expense_findOne. simpl. rewrite expenses_inc_ref.
  rewrite list_lookup_insert_eq by (by eapply lookup_lt_Some).
  simpl. by rewrite andb_false_r.
Qed.

(** C10: a second DELETE of the same expense finds no active expense, answers
    404 and writes nothing, however often it is repeated; the budget the
    expense was linked to has had the amount taken off its [spent] once, by
    the first request. *)
Theorem delete_expense_twice u id db :
  delete_expense u id (delete_expense u id db).2
  = (NotFound404, (delete_expense u id db).2)
  /\ (forall n,
         Nat.iter n (fun d => (delete_expense u id d).2)
                  (delete_expense u id db).2
         = (delete_expense u id db).2)
  /\ (forall e b s,
         Expense_findOne db id u = Some e ->
         Expense.budget e = Some b ->
         spent_of db b = Some s ->
         (delete_expense u id db).1 = Ok200
         /\ spent_of (delete_expense u id db).2 b
            = Some (s - Expense.amount e)).
Proof.
  assert (H2 : delete_expense u id (delete_expense u id db).2
               = (NotFound404, (delete_expense u id db).2)).
  { unfold delete_expense at 1. by rewrite delete_expense_hides. }
  split; [done|]. split.
  - induction n as [|n IH]; simpl; [done|]. by rewrite IH, H2.
  - intros e b s Hf Hb Hs. unfold delete_expense. rewrite Hf, Hb. simpl.
    split; [done|].
    change (spent_of (Expense_put _ _ ?d) b) with (spent_of d b).
    rewrite spent_of_inc, Hs. simpl.
    rewrite bool_decide_eq_true_2 by done. reflexivity.
Qed.

Lemma delete_expense_twice_witness :
  (delete_expense Scenario.alice 0 Scenario.two_budgets_one_expense).1 = Ok200
  /\ spent_of
       (delete_expense Scenario.alice 0 Scenario.two_budgets_one_expense).2 0
     = Some (100 - 100)
  /\ delete_expense Scenario.alice 0
       (delete_expense Scenario.alice 0 Scenario.two_budgets_one_expense).2
     = (NotFound404,
        (delete_expense Scenario.alice 0 Scenario.two_budgets_one_expense).2).
Proof.
  pose proof (delete_expense_twice Scenario.alice 0
                Scenario.two_budgets_one_expense) as (H2 & _ & H1).
  destruct (H1 _ 0%nat 100 eq_refl eq_refl eq_refl) as [Hs Hb].
  exact (conj Hs (conj Hb H2)).
Defined.

End DeleteFacts.

(** ** Where the aggregate drifts *)

Module DriftFacts.
Import Query BudgetRoutes ExpenseRoutes Aggregate AggregateFacts.

(** X2: no expense request writes [remaining]: creation, update and deletion
    reach the budget only through [$inc] on [spent]. *)
Lemma remaining_of_handle r db b :
  remaining_of (handle r db).2 b = remaining_of db b.
Proof.
  assert (Hinc : forall (ref : option BudgetId) d db0,
             remaining_of (match ref with
                           | Some x => Budget_inc_spent x d db0
                           | None => db0
                           end) b = remaining_of db0 b).
  { intros [x|] d db0; [apply remaining_of_inc|done]. }
  destruct r as [now u req|u id body|u id]; simpl.
  - unfold post_expense. destruct (invalid_budget _ _ _); simpl; [done|].
    by rewrite Hinc.
  - unfold put_expense. destruct (Expense_findOne _ _ _) as [e|]; [|done].
    simpl. change (remaining_of (Expense_put _ _ ?d) b) with (remaining_of d b).
    unfold adjust_budgets. destruct (p_amount body) as [a|]; [|done].
    destruct (negb _); [|done].
    destruct (p_budget body) as [nb|]; [destruct (negb _)|];
      rewrite ?remaining_of_inc; apply Hinc.
  - unfold delete_expense. destruct (Expense_findOne _ _ _) as [e|]; [|done].
    simpl. change (remaining_of (Expense_put _ _ ?d) b) with (remaining_of d b).
    apply Hinc.
Qed.


(** C1: the sequence "create an expense of 100 on the first budget, then move
    it to the second budget" leaves the first budget with [spent] 100 and no
    active expense, and the second with [spent] 0 and an active expense of
    100: conservation is lost. *)
Theorem conservation_lost_by_reassignment :
  let db := serve [Create Scenario.today Scenario.alice Scenario.ticket;
                   Update Scenario.alice 0 Scenario.move_to_second]
                  Scenario.two_budgets in
  spent_of db 0 = Some 100 /\ linked_total 0 (expenses db) = 0 /\
  spent_of db 1 = Some 0 /\ linked_total 1 (expenses db) = 100 /\
  ~ conserved db.
Proof.
  repeat (split; [reflexivity|]).
  intros Hc. specialize (Hc 0%nat 100 eq_refl). discriminate Hc.
Qed.

(** C2: after an expense of 150 is created against a fresh budget of 1000,
    the stored budget has [spent] 150 and [remaining] still 1000, not 850. *)
Theorem remaining_stale_after_create :
  let db := (post_expense Scenario.today Scenario.alice Scenario.groceries
                          Scenario.one_budget).2 in
  (post_expense Scenario.today Scenario.alice Scenario.groceries
                Scenario.one_budget).1 = Created201 /\
  Budget.amount <$> budgets db !! 0%nat = Some 1000 /\
  spent_of db 0 = Some 150 /\
  remaining_of db 0 = Some 1000 /\
  remaining_of db 0 <> Some (1000 - 150).
Proof. repeat (split; [reflexivity|]). discriminate. Qed.

(** C3: moving the expense of 100 from the first budget to the second leaves
    both [spent] fields as they were (100 and 0); moving it while raising its
    amount to 150 adds 50 to the first budget and 150 to the second.  In
    neither case does the first budget lose the 100. *)
Theorem reassignment_keeps_old_budget_charged :
  let db := Scenario.two_budgets_one_expense in
  (spent_of db 0 = Some 100 /\ spent_of db 1 = Some 0) /\
  (let db' := (put_expense Scenario.alice 0 Scenario.move_to_second db).2 in
   Expense.budget <$> expenses db' !! 0%nat = Some (Some 1%nat) /\
   spent_of db' 0 = Some 100 /\ spent_of db' 1 = Some 0) /\
  (let db' := (put_expense Scenario.alice 0 Scenario.move_and_raise db).2 in
   Expense.budget <$> expenses db' !! 0%nat = Some (Some 1%nat) /\
   spent_of db' 0 = Some 150 /\ spent_of db' 1 = Some 150).
Proof. repeat split; reflexivity. Qed.

End DriftFacts.

(** ** Planned expenses: [perYear] *)

Module SavingsFacts.
Import SavingsRoutes.

(** A created document has [perYear = perMonth * 12]. *)
Lemma post_expense_perYear u req coll :
  let '(_, id, coll') := post_expense u req coll in
  exists e, coll' !! id = Some e /\
            SavingsExpense.perYear e = SavingsExpense.perMonth e * 12.
Proof.
  simpl. eexists. split; [apply lookup_insert_eq|]. reflexivity.
Qed.


(** C8: a planned expense created with [perMonth] 100 and then updated to
    [perMonth] 200 is stored with [perYear] 1200, not 2400. *)
Theorem perYear_stale_after_update :
  let '(_, id, coll) := post_expense Scenario.alice Scenario.rent ∅ in
  let '(status, coll') :=
    put_expense Scenario.alice id Scenario.raise_rent coll in
  status = Ok200 /\
  SavingsExpense.perMonth <$> coll' !! id = Some 200 /\
  SavingsExpense.perYear <$> coll' !! id = Some 1200 /\
  SavingsExpense.perYear <$> coll' !! id <> Some (200 * 12).
Proof. vm_compute. repeat (split; [reflexivity|]). discriminate. Qed.

End SavingsFacts.

(** ** Ratios and their zero divisor *)

Module RatioFacts.





(** The variance percentage of the insights rule is 0 on a zero budget. *)
Lemma insight_variancePercentage_zero item :
  ExpenseAnalytics.budget item = 0 ->
  Analytics.variancePercentage item = Num.ofZ 0.
Proof. unfold Analytics.variancePercentage. by intros ->. Qed.

(** C5: on a budget of amount 0 the utilization behind the dashboard
    notifications is not 0: it is [Infinity] when something has been spent,
    and a "Budget Alert" carrying [Infinity] is emitted, and it is [NaN] when
    nothing has been spent.  The [spendingPercentage] virtual of the same
    budgets is 0. *)
Theorem dashboard_utilization_unguarded :
  budgets Scenario.gifts_budget = [Scenario.untouched_zero]
  /\ budgets Scenario.gifts_overspent = [Scenario.overspent_zero]
  /\ Dashboard.utilization Scenario.overspent_zero = Num.PosInf
  /\ Dashboard.get_notifications Scenario.today Scenario.alice
                                Scenario.gifts_overspent
     = [Dashboard.mkNotification warning "Budget Alert"
          (Dashboard.BudgetUsed "Gifts" Num.PosInf true) Other
          (Dashboard.BudgetData 0 Num.PosInf)]
  /\ Dashboard.utilization Scenario.untouched_zero = Num.NaN
  /\ Budget.spendingPercentage Scenario.overspent_zero = Num.ofZ 0
  /\ Budget.spendingPercentage Scenario.untouched_zero = Num.ofZ 0.
Proof. repeat split; reflexivity. Qed.

End RatioFacts.

(** ** Ordering of notifications and insights *)

Module OrderFacts.
Import Dashboard Order.

(** A warning goes in front of whatever is there. *)
Lemma sort_insert_warning x l :
  type x = warning -> sort_insert by_priority x l = x :: l.
Proof.
  intros Hx. destruct l as [|y l]; [done|]. simpl.
  unfold by_priority. rewrite Hx. by destruct (type y).
Qed.

(** An info passes the warnings and stops in front of the infos. *)
Lemma sort_insert_info x ws infos :
  type x = info -> Forall is_warning ws -> Forall is_info infos ->
  sort_insert by_priority x (ws ++ infos) = ws ++ x :: infos.
Proof.
  intros Hx Hws Hinfos. induction Hws as [|w ws Hw _ IH]; simpl.
  - destruct Hinfos as [|y infos Hy _]; [done|]. simpl.
    unfold by_priority. by rewrite Hx, Hy.
  - unfold by_priority at 1. rewrite Hx, Hw. simpl. by rewrite IH.
Qed.

(** On warnings and infos the sort is the stable partition: the warnings in
    their order, then the infos in theirs. *)
Lemma Array_sort_by_priority l :
  Forall (fun n => type n = warning \/ type n = info) l ->
  Array_sort by_priority l = filter is_warning l ++ filter is_info l.
Proof.
  induction 1 as [|x l Hx Hl IH]; [done|].
  unfold Array_sort in *. simpl. rewrite IH.
  destruct Hx as [Hx|Hx].
  - rewrite sort_insert_warning by done.
    rewrite filter_cons_True by done.
    rewrite (filter_cons_False is_info) by congruence. done.
  - rewrite sort_insert_info; try done.
    + rewrite filter_cons_False by congruence.
      by rewrite (filter_cons_True is_info) by done.
    + apply Forall_forall. by intros y [Hy _]%list_elem_of_filter.
    + apply Forall_forall. by intros y [Hy _]%list_elem_of_filter.
Qed.

Lemma warnings_first_app (ws infos : list Severity) :
  Forall (eq warning) ws -> Forall (eq info) infos ->
  warnings_first (ws ++ infos).
Proof.
  intros Hws Hinfos i j Hij Hi Hj.
  destruct (decide (i < length ws)%nat) as [Hlt|Hge].
  - rewrite lookup_app_l in Hi by done.
    eapply Forall_lookup_1 in Hi; [|exact Hws]. discriminate.
  - rewrite lookup_app_r in Hj by lia.
    eapply Forall_lookup_1 in Hj; [|exact Hinfos]. discriminate.
Qed.

(** The array before the sort holds warnings and infos only. *)
Lemma budget_notice_types acc entry :
  Forall (fun n => type n = warning \/ type n = info) acc ->
  Forall (fun n => type n = warning \/ type n = info)
         (budget_notice acc entry).
Proof.
  intros Hacc. destruct entry as [id budget]. unfold budget_notice.
  destruct (Num.ge _ _); [|destruct (Num.ge _ _)]; try done;
    apply Forall_app; split; try done;
    (constructor; [simpl; auto|constructor]).
Qed.

Lemma expense_notice_types acc entry :
  Forall (fun n => type n = warning \/ type n = info) acc ->
  Forall (fun n => type n = warning \/ type n = info)
         (expense_notice acc entry).
Proof.
  intros Hacc. destruct entry as [c amounts]. unfold expense_notice.
  destruct (0 <? length amounts)%nat; [|done].
  destruct (Num.gt _ _); [|done].
  apply Forall_app; split; [done|].
  constructor; [by right|constructor].
Qed.

Lemma collect_types budgets monthlyExpenses :
  Forall (fun n => type n = warning \/ type n = info)
         (collect budgets monthlyExpenses).
Proof.
  unfold collect.
  assert (H1 : forall l acc,
             Forall (fun n => type n = warning \/ type n = info) acc ->
             Forall (fun n => type n = warning \/ type n = info)
                    (foldl budget_notice acc l)).
  { induction l as [|x l IH]; intros acc Hacc; simpl; [done|].
    by apply IH, budget_notice_types. }
  assert (H2 : forall l acc,
             Forall (fun n => type n = warning \/ type n = info) acc ->
             Forall (fun n => type n = warning \/ type n = info)
                    (foldl expense_notice acc l)).
  { induction l as [|x l IH]; intros acc Hacc; simpl; [done|].
    by apply IH, expense_notice_types. }
  apply H2, H1. constructor.
Qed.

(** A loop that only pushes to its array leaves what was there in front. *)
Lemma foldl_push {A B} (f : list B -> A -> list B) (g : A -> list B) :
  (forall acc x, f acc x = acc ++ g x) ->
  forall l acc, foldl f acc l = acc ++ foldl f [] l.
Proof.
  intros Hf. induction l as [|x l IH]; intros acc; simpl.
  - by rewrite app_nil_r.
  - rewrite IH, (IH (f [] x)), !Hf. simpl. by rewrite app_assoc.
Qed.

Lemma concentration_insight_push totalSpent :
  exists g, forall acc x,
      Analytics.concentration_insight totalSpent acc x = acc ++ g x.
Proof.
  exists (fun x => Analytics.concentration_insight totalSpent [] x).
  intros acc [c a]. unfold Analytics.concentration_insight.
  destruct (Num.gt _ _); [done|]. by rewrite app_nil_r.
Qed.

(** C6 as stated fails on the analytics insights: with one food expense and
    a budget used to 90%, the info about food stands before the warning about
    the overall utilization. *)
Lemma insights_info_before_warning :
  ~ warnings_first
      (Analytics.type
         <$> Analytics.get_insights Scenario.today Scenario.alice []
                                    Scenario.food_nearly_spent).
Proof.
  intros H. apply (H 0%nat 1%nat); [lia|reflexivity|reflexivity].
Qed.

Example insights_food_nearly_spent :
  Analytics.get_insights Scenario.today Scenario.alice []
                         Scenario.food_nearly_spent
  = [Analytics.mkInsight info (Analytics.OfCategory Food)
                         (Num.Fin (9000 # 90));
     Analytics.mkInsight warning Analytics.Overall (Num.Fin (9000 # 100))].
Proof. reflexivity. Qed.

(** C6, amended: the dashboard notifications are the warnings of the
    collected array in their insertion order followed by its infos in theirs,
    so every warning precedes every info; the analytics insights are not
    sorted: they are the entries of the variance rule, then those of the
    concentration rule, then the overall utilization warning, each group in
    insertion order. *)
Theorem notifications_sorted_insights_unsorted :
  (forall budgets monthlyExpenses,
      notifications budgets monthlyExpenses
      = filter is_warning (collect budgets monthlyExpenses)
          ++ filter is_info (collect budgets monthlyExpenses)
      /\ warnings_first (type <$> notifications budgets monthlyExpenses))
  /\ (forall analytics expenses budgets,
         Analytics.insights analytics expenses budgets
         = foldl Analytics.variance_insight [] analytics
             ++ foldl (Analytics.concentration_insight (totalSpent expenses))
                      [] (Analytics.categorySpending expenses)
             ++ (if Num.gt (Analytics.budgetUtilization budgets) (Num.ofZ 80)
                 then [Analytics.mkInsight
                         warning Analytics.Overall
                         (Analytics.budgetUtilization budgets)]
                 else [])).
Proof.
  split.
  - intros budgets monthlyExpenses.
    assert (Hs : notifications budgets monthlyExpenses
                 = filter is_warning (collect budgets monthlyExpenses)
                     ++ filter is_info (collect budgets monthlyExpenses))
      by apply Array_sort_by_priority, collect_types.
    split; [done|]. rewrite Hs, fmap_app.
    apply warnings_first_app; apply Forall_fmap, Forall_forall;
      by intros y [Hy _]%list_elem_of_filter.
  - intros analytics expenses budgets. unfold Analytics.insights.
    fold (totalSpent expenses).
    destruct (concentration_insight_push (totalSpent expenses)) as [g Hg].
    rewrite (foldl_push _ g Hg _ (foldl _ _ analytics)).
    destruct (Num.gt _ _).
    + by rewrite <- app_assoc.
    + by rewrite !app_nil_r.
Qed.

End OrderFacts.

(** ** Density of the monthly breakdowns *)

Module MonthlyFacts.
Import Monthly Density.

Lemma foldl_insert_lookup {V} (zero : V) (ks : list nat) (o : gmap nat V) k :
  foldl (fun o month => <[month := zero]> o) o ks !! k
  = if decide (k ∈ ks) then Some zero else o !! k.
Proof.
  revert o. induction ks as [|m ks IH]; intros o; simpl.
  - done.
  - rewrite IH. destruct (decide (k ∈ ks)) as [Hin|Hout].
    + rewrite decide_True; [done|]. by apply elem_of_cons; right.
    + destruct (decide (k = m)) as [->|Hne].
      * rewrite decide_True by apply list_elem_of_here.
        apply lookup_insert_eq.
      * rewrite decide_False.
        -- by apply lookup_insert_ne.
        -- intros [?|?]%elem_of_cons; done.
Qed.

Lemma init_lookup {V} (zero : V) k :
  init zero !! k = if decide (1 <= k <= 12)%nat then Some zero else None.
Proof.
  unfold init. rewrite foldl_insert_lookup, lookup_empty.
  destruct (decide (k ∈ seq 1 12)) as [Hin|Hout];
    rewrite elem_of_seq in *.
  - rewrite decide_True; [done|lia].
  - rewrite decide_False; [done|lia].
Qed.

Lemma init_twelve_months {V} (zero : V) : twelve_months (init zero).
Proof.
  intros k. rewrite init_lookup.
  destruct (decide _) as [H|H]; split; try done.
Qed.

Lemma twelve_months_insert {V} (o : gmap nat V) m v :
  twelve_months o -> (1 <= m <= 12)%nat -> twelve_months (<[m := v]> o).
Proof.
  intros Ho Hm k. destruct (decide (m = k)) as [->|Hne].
  - rewrite lookup_insert_eq. split; [done|by eexists].
  - rewrite lookup_insert_ne by done. apply Ho.
Qed.

(** *** Expenses *)

Lemma expense_fold currentYear expenses :
  Forall (fun e => (getMonth (Expense.date e) < 12)%nat) expenses ->
  forall o, twelve_months o ->
  exists o', foldl (add_expense currentYear) (Some o) expenses = Some o'
             /\ twelve_months o'
             /\ forall k, Forall (fun e => ~ in_month currentYear k e) expenses
                          -> o' !! k = o !! k.
Proof.
  induction 1 as [|e es He _ IH]; intros o Ho; simpl.
  - by exists o.
  - destruct (Z.eqb_spec (getFullYear (Expense.date e)) currentYear)
      as [Hy|Hy].
    + set (month := (getMonth (Expense.date e) + 1)%nat).
      destruct (Ho month) as [_ [row Hrow]]; [unfold month; lia|].
      fold month. rewrite Hrow. simpl.
      destruct (IH (<[month := mkSpend (totalSpent row + Expense.amount e)
                                       (count row + 1)]> o))
        as (o' & Hfold & Hdom & Hrest).
      { apply twelve_months_insert; [exact Ho|unfold month; lia]. }
      exists o'. split; [exact Hfold|]. split; [done|].
      intros k Hk. apply Forall_cons in Hk as [Hke Hk].
      rewrite (Hrest k Hk). apply lookup_insert_ne.
      intros <-. by apply Hke.
    + destruct (IH o Ho) as (o' & Hfold & Hdom & Hrest).
      exists o'. split; [exact Hfold|]. split; [done|].
      intros k Hk. apply Forall_cons in Hk as [_ Hk]. by apply Hrest.
Qed.

(** *** Analytics rows *)

Lemma analytics_fold analytics :
  Forall (fun a => (1 <= ExpenseAnalytics.month a <= 12)%nat) analytics ->
  forall o, twelve_months o ->
  exists o', foldl add_item (Some o) analytics = Some o'
             /\ twelve_months o'
             /\ forall k, Forall (fun a => ExpenseAnalytics.month a <> k)
                                 analytics
                          -> o' !! k = o !! k.
Proof.
  induction 1 as [|a l Ha _ IH]; intros o Ho; simpl.
  - by exists o.
  - destruct (Ho (ExpenseAnalytics.month a)) as [_ [row Hrow]]; [done|].
    rewrite Hrow. simpl.
    destruct (IH (<[ExpenseAnalytics.month a :=
                      mkVariance (budget row + ExpenseAnalytics.budget a)
                                 (actual row + ExpenseAnalytics.actual a)
                                 (variance row)
                                 (lastYear row + ExpenseAnalytics.lastYear a)]>
                    o))
      as (o' & Hfold & Hdom & Hrest).
    { by apply twelve_months_insert. }
    exists o'. split; [exact Hfold|]. split; [done|].
    intros k Hk. apply Forall_cons in Hk as [Hka Hk].
    rewrite (Hrest k Hk). by apply lookup_insert_ne.
Qed.

(** C7: whatever expenses (with dates whose month index is below 12) or
    analytics rows (with months 1 to 12) are given, the empty collection
    included, the monthly breakdown is produced, its keys are exactly 1 to
    12, and a month without data holds its zero entry. *)
Theorem monthlyBreakdown_dense :
  (forall currentYear expenses,
      Forall (fun e => (getMonth (Expense.date e) < 12)%nat) expenses ->
      exists o,
        expense_monthlyBreakdown currentYear expenses = Some o
        /\ (forall k : nat, is_Some (o !! k) <-> (1 <= k <= 12)%nat)
        /\ (forall k : nat,
               (1 <= k <= 12)%nat ->
               Forall (fun e => ~ in_month currentYear k e) expenses ->
               o !! k = Some (mkSpend 0 0)))
  /\ (forall analytics,
         Forall (fun a => (1 <= ExpenseAnalytics.month a <= 12)%nat)
                analytics ->
         exists o,
           analytics_monthlyBreakdown analytics = Some o
           /\ (forall k : nat, is_Some (o !! k) <-> (1 <= k <= 12)%nat)
           /\ (forall k : nat,
                  (1 <= k <= 12)%nat ->
                  Forall (fun a => ExpenseAnalytics.month a <> k) analytics ->
                  o !! k = Some (mkVariance 0 0 0 0))).
Proof.
  split.
  - intros currentYear expenses Hes.
    destruct (expense_fold currentYear expenses Hes _
                (init_twelve_months (mkSpend 0 0)))
      as (o & Hfold & Hdom & Hrest).
    exists o. split; [exact Hfold|]. split; [exact Hdom|].
    intros k Hk Hnone. rewrite (Hrest k Hnone), init_lookup.
    by rewrite decide_True.
  - intros analytics Has.
    destruct (analytics_fold analytics Has _
                (init_twelve_months (mkVariance 0 0 0 0)))
      as (o & Hfold & Hdom & Hrest).
    exists (set_variance <$> o). unfold analytics_monthlyBreakdown.
    rewrite Hfold. split; [done|]. split.
    + intros k. rewrite lookup_fmap, fmap_is_Some. apply Hdom.
    + intros k Hk Hnone. rewrite lookup_fmap, (Hrest k Hnone), init_lookup.
      by rewrite decide_True.
Qed.

Lemma monthlyBreakdown_dense_witness :
  (exists o,
      expense_monthlyBreakdown 2025 [Scenario.lunch] = Some o
      /\ is_Some (o !! 3%nat)
      /\ o !! 4%nat = Some (mkSpend 0 0))
  /\ (exists o,
         analytics_monthlyBreakdown [Scenario.food_plan] = Some o
         /\ is_Some (o !! 3%nat)
         /\ o !! 4%nat = Some (mkVariance 0 0 0 0)).
Proof.
  split.
  - destruct (proj1 monthlyBreakdown_dense 2025 [Scenario.lunch])
      as (o & Hsome & Hdom & Hzero).
    { repeat constructor. }
    exists o. split; [exact Hsome|]. split.
    + apply Hdom. lia.
    + apply Hzero; [lia|]. constructor; [|constructor].
      intros [_ Hmonth]. discriminate Hmonth.
  - destruct (proj2 monthlyBreakdown_dense [Scenario.food_plan])
      as (o & Hsome & Hdom & Hzero).
    { repeat constructor. }
    exists o. split; [exact Hsome|]. split.
    + apply Hdom. lia.
    + apply Hzero; [lia|]. constructor; [|constructor].
      simpl. discriminate.
Defined.

End MonthlyFacts.

(** ** Further properties of the expense handlers *)

Module LifecycleFacts.
Import Query BudgetRoutes ExpenseRoutes Aggregate AggregateFacts Cases.



Lemma Expense_findOne_None db id u :
  Expense_findOne db id u = None <->
  expenses db !! id = None \/
  exists e, expenses db !! id = Some e /\
            (Expense.user e <> u \/ Expense.isActive e = false).
Proof.
  unfold Expense_findOne. destruct (expenses db !! id) as [x|].
  - destruct (bool_decide _) eqn:Hu; simpl.
    + apply bool_decide_eq_true in Hu.
      destruct (Expense.isActive x) eqn:Ha; split; try done.
      * intros [|[e [[= <-] [|]]]]; congruence.
      * intros _. right. exists x. auto.
    + apply bool_decide_eq_false in Hu. split; [|done].
      intros _. right. exists x. auto.
  - split; auto.
Qed.

(** X4: an update or a deletion aimed at an expense that does not exist, belongs
    to someone else or has been soft-deleted answers 404 and leaves the
    database as it was. *)
Theorem expense_not_found_untouched u id body db :
  expenses db !! id = None \/
  (exists e, expenses db !! id = Some e /\
             (Expense.user e <> u \/ Expense.isActive e = false)) ->
  put_expense u id body db = (NotFound404, db)
  /\ delete_expense u id db = (NotFound404, db).
Proof.
  intros H. apply Expense_findOne_None in H.
  unfold put_expense, delete_expense. by rewrite H.
Qed.

Lemma expense_not_found_untouched_witness :
  put_expense Scenario.bob 0 raise_only Scenario.two_budgets_one_expense
  = (NotFound404, Scenario.two_budgets_one_expense)
  /\ delete_expense Scenario.bob 0 Scenario.two_budgets_one_expense
     = (NotFound404, Scenario.two_budgets_one_expense).
Proof.
  apply expense_not_found_untouched.
  right. eexists. split; [reflexivity|]. left. discriminate.
Defined.




End LifecycleFacts.

(** ** Bulk creation that runs to its end *)

Module BulkFacts.
Import Query BudgetRoutes ExpenseRoutes Aggregate AggregateFacts Cases.











End BulkFacts.

(** ** What the monthly buckets hold *)

Module BucketFacts.
Import Monthly Density Cases MonthlyFacts.

Lemma expense_fold_exact currentYear expenses :
  Forall (fun e => (getMonth (Expense.date e) < 12)%nat) expenses ->
  forall o, twelve_months o ->
  exists o', foldl (add_expense currentYear) (Some o) expenses = Some o'
             /\ forall k,
                 o' !! k
                 = (fun row =>
                      mkSpend
                        (totalSpent row + month_total currentYear k expenses)
                        (count row + month_count currentYear k expenses))
                     <$> o !! k.
Proof.
  induction 1 as [|e es He _ IH]; intros o Ho.
  - exists o. split; [done|]. intros k. simpl.
    destruct (o !! k) as [[t c]|]; simpl; [|done].
    by rewrite !Z.add_0_r.
  - simpl. unfold in_monthb.
    destruct (Z.eqb_spec (getFullYear (Expense.date e)) currentYear)
      as [Hy|Hy]; simpl.
    + set (month := (getMonth (Expense.date e) + 1)%nat).
      destruct (Ho month) as [_ [row Hrow]]; [unfold month; lia|].
      rewrite Hrow. simpl.
      destruct (IH (<[month := mkSpend (totalSpent row + Expense.amount e)
                                       (count row + 1)]> o))
        as (o' & Hfold & Hrows).
      { apply twelve_months_insert; [exact Ho|unfold month; lia]. }
      exists o'. split; [exact Hfold|]. intros k. rewrite Hrows.
      destruct (Nat.eqb_spec month k) as [<-|Hne].
      * rewrite lookup_insert_eq, Hrow. simpl. f_equal. f_equal; lia.
      * by rewrite lookup_insert_ne.
    + destruct (IH o Ho) as (o' & Hfold & Hrows).
      exists o'. split; [exact Hfold|]. exact Hrows.
Qed.

(** X7: the bucket of each month holds the total and the number of the expenses
    dated in that month of the current year. *)
Theorem expense_monthlyBreakdown_contents currentYear expenses :
  Forall (fun e => (getMonth (Expense.date e) < 12)%nat) expenses ->
  exists o,
    expense_monthlyBreakdown currentYear expenses = Some o
    /\ forall k : nat,
        (1 <= k <= 12)%nat ->
        o !! k = Some (mkSpend (month_total currentYear k expenses)
                               (month_count currentYear k expenses)).
Proof.
  intros Hes.
  destruct (expense_fold_exact currentYear expenses Hes _
              (init_twelve_months (mkSpend 0 0))) as (o & Hfold & Hrows).
  exists o. split; [exact Hfold|]. intros k Hk.
  rewrite Hrows, init_lookup, decide_True by done. reflexivity.
Qed.

Lemma expense_monthlyBreakdown_contents_witness :
  exists o,
    expense_monthlyBreakdown 2025 [Scenario.lunch; Scenario.lunch] = Some o
    /\ o !! 3%nat = Some (mkSpend 200 2).
Proof.
  destruct (expense_monthlyBreakdown_contents 2025
              [Scenario.lunch; Scenario.lunch]) as (o & Hsome & Hrows).
  - repeat constructor.
  - exists o. split; [exact Hsome|]. apply (Hrows 3%nat). lia.
Defined.

Lemma analytics_fold_exact analytics :
  Forall (fun a => (1 <= ExpenseAnalytics.month a <= 12)%nat) analytics ->
  forall o, twelve_months o ->
  exists o', foldl add_item (Some o) analytics = Some o'
             /\ forall k,
                 o' !! k
                 = (fun row =>
                      mkVariance
                        (budget row
                         + rows_total ExpenseAnalytics.budget k analytics)
                        (actual row
                         + rows_total ExpenseAnalytics.actual k analytics)
                        (variance row)
                        (lastYear row
                         + rows_total ExpenseAnalytics.lastYear k analytics))
                     <$> o !! k.
Proof.
  induction 1 as [|a l Ha _ IH]; intros o Ho.
  - exists o. split; [done|]. intros k. simpl.
    destruct (o !! k) as [[b c v y]|]; simpl; [|done].
    by rewrite !Z.add_0_r.
  - simpl.
    destruct (Ho (ExpenseAnalytics.month a)) as [_ [row Hrow]]; [done|].
    rewrite Hrow. simpl.
    destruct (IH (<[ExpenseAnalytics.month a :=
                      mkVariance (budget row + ExpenseAnalytics.budget a)
                                 (actual row + ExpenseAnalytics.actual a)
                                 (variance row)
                                 (lastYear row + ExpenseAnalytics.lastYear a)]>
                    o))
      as (o' & Hfold & Hrows).
    { by apply twelve_months_insert. }
    exists o'. split; [exact Hfold|]. intros k. rewrite Hrows.
    destruct (Nat.eqb_spec (ExpenseAnalytics.month a) k) as [<-|Hne].
    + rewrite lookup_insert_eq, Hrow. simpl. f_equal. f_equal; lia.
    + by rewrite lookup_insert_ne.
Qed.

(** X8: in the analytics summary the bucket of each month holds the totals of
    budget, actual and last year over the rows of that month, and its
    variance is the budget total less the actual total. *)
Theorem analytics_monthlyBreakdown_contents analytics :
  Forall (fun a => (1 <= ExpenseAnalytics.month a <= 12)%nat) analytics ->
  exists o,
    analytics_monthlyBreakdown analytics = Some o
    /\ forall k : nat,
        (1 <= k <= 12)%nat ->
        o !! k
        = Some (mkVariance
                  (rows_total ExpenseAnalytics.budget k analytics)
                  (rows_total ExpenseAnalytics.actual k analytics)
                  (rows_total ExpenseAnalytics.budget k analytics
                   - rows_total ExpenseAnalytics.actual k analytics)
                  (rows_total ExpenseAnalytics.lastYear k analytics)).
Proof.
  intros Has.
  destruct (analytics_fold_exact analytics Has _
              (init_twelve_months (mkVariance 0 0 0 0)))
    as (o & Hfold & Hrows).
  exists (set_variance <$> o). unfold analytics_monthlyBreakdown.
  rewrite Hfold. split; [done|]. intros k Hk.
  rewrite lookup_fmap, Hrows, init_lookup, decide_True by done. reflexivity.
Qed.

Lemma analytics_monthlyBreakdown_contents_witness :
  exists o,
    analytics_monthlyBreakdown [Scenario.food_plan; Scenario.food_plan]
    = Some o
    /\ o !! 3%nat = Some (mkVariance 200 160 40 140).
Proof.
  destruct (analytics_monthlyBreakdown_contents
              [Scenario.food_plan; Scenario.food_plan])
    as (o & Hsome & Hrows).
  - repeat constructor.
  - exists o. split; [exact Hsome|]. apply (Hrows 3%nat). lia.
Defined.

End BucketFacts.

(** ** The thresholds of the notification and insight rules *)

Module ThresholdFacts.













End ThresholdFacts.

(** ** Grouping by category *)

Module GroupFacts.
Import Cases.



Section Measure.
Context {A V : Type} (key : A -> Category) (zero : V) (add : V -> A -> V).
Context (m : V -> Z) (w : A -> Z).
Hypothesis m_zero : m zero = 0.
Hypothesis m_add : forall v x, m (add v x) = m v + w x.



End Measure.

Section Keys.
Context {A V : Type} (key : A -> Category) (zero : V) (add : V -> A -> V).



End Keys.

End GroupFacts.

(** ** The summaries *)

Module SummaryFacts.
Import Cases GroupFacts.







End SummaryFacts.

(** ** Find-then-save *)

Module UpsertFacts.

Section UpdateFirst.
Context {A : Type} (matches : A -> bool) (change : A -> A).

Lemma update_first_None docs :
  update_first matches change docs = None ->
  Forall (fun a => matches a = false) docs.
Proof.
  induction docs as [|a docs IH]; simpl; [constructor|].
  destruct (matches a) eqn:Ha; [done|].
  destruct (update_first matches change docs); [done|].
  intros _. constructor; [done|]. by apply IH.
Qed.

Lemma update_first_append docs new :
  update_first matches change docs = None ->
  matches new = true ->
  List.find matches (docs ++ [new]) = Some new
  /\ update_first matches change (docs ++ [new])
     = Some (docs ++ [change new]).
Proof.
  intros Hnone Hnew. apply update_first_None in Hnone.
  induction Hnone as [|a docs Ha _ [IH1 IH2]]; simpl.
  - by rewrite Hnew.
  - by rewrite Ha, IH1, IH2.
Qed.

Lemma update_first_Some docs docs' :
  update_first matches change docs = Some docs' ->
  exists before a after,
    docs = before ++ a :: after
    /\ docs' = before ++ change a :: after
    /\ matches a = true
    /\ Forall (fun x => matches x = false) before.
Proof.
  revert docs'. induction docs as [|x docs IH]; intros docs'; simpl; [done|].
  destruct (matches x) eqn:Hx.
  - intros [= <-]. exists [], x, docs. by repeat split.
  - destruct (update_first matches change docs) as [l|]; [|done].
    intros [= <-]. destruct (IH l eq_refl) as (b & a & r & -> & -> & Ha & Hb).
    exists (x :: b), a, r. repeat split; try done. by constructor.
Qed.

Lemma find_skip before (rest : list A) :
  Forall (fun x => matches x = false) before ->
  List.find matches (before ++ rest) = List.find matches rest.
Proof. induction 1 as [|x l Hx _ IH]; simpl; [done|]. by rewrite Hx. Qed.

Lemma update_first_skip before (rest : list A) :
  Forall (fun x => matches x = false) before ->
  update_first matches change (before ++ rest)
  = app before <$> update_first matches change rest.
Proof.
  induction 1 as [|x l Hx _ IH]; simpl.
  - by destruct (update_first matches change rest).
  - rewrite Hx, IH. by destruct (update_first matches change rest).
Qed.

End UpdateFirst.

End UpsertFacts.

(** ** The analytics collection *)

Module AnalyticsFacts.
Import AnalyticsRoutes Cases UpsertFacts.

Lemma same_key_spec u req a :
  same_key u req a = true
  <-> analytics_key a = (u, na_category req, na_month req, na_year req).
Proof.
  unfold same_key, analytics_key.
  rewrite !andb_true_iff, !bool_decide_eq_true. split.
  - by intros [[[-> ->] ->] ->].
  - by intros [= -> -> -> ->].
Qed.

Lemma same_key_document u req : same_key u req (document u req) = true.
Proof. by apply same_key_spec. Qed.

Lemma overwrite_document u req a :
  same_key u req a = true -> overwrite req a = document u req.
Proof.
  intros [= Hu Hc Hm Hy]%same_key_spec. unfold overwrite, document.
  by rewrite Hu, Hc, Hm, Hy.
Qed.

Lemma same_key_false_neq u req a :
  same_key u req a = false ->
  analytics_key a <> analytics_key (document u req).
Proof.
  intros Hf Heq. apply (same_key_spec u req) in Heq. congruence.
Qed.

(** X20: after [POST /api/analytics] the row of the posted user, category, month
    and year holds the posted figures; rows with another key are as they
    were; a collection with one row per key stays so; and posting the same
    body again changes nothing. *)
Theorem post_analytics_upsert u req rows :
  List.find (same_key u req) (post_analytics u req rows)
  = Some (document u req)
  /\ List.filter (fun a => negb (same_key u req a))
                 (post_analytics u req rows)
     = List.filter (fun a => negb (same_key u req a)) rows
  /\ (NoDup (analytics_key <$> rows) ->
      NoDup (analytics_key <$> post_analytics u req rows))
  /\ post_analytics u req (post_analytics u req rows)
     = post_analytics u req rows.
Proof.
  unfold post_analytics.
  destruct (update_first (same_key u req) (overwrite req) rows)
    as [rows'|] eqn:Hup.
  - apply update_first_Some in Hup
      as (before & a & after & -> & -> & Ha & Hbefore).
    rewrite (overwrite_document u) by done.
    split; [|split; [|split]].
    + rewrite find_skip by done. simpl. by rewrite same_key_document.
    + rewrite !List.filter_app. simpl.
      by rewrite Ha, same_key_document.
    + rewrite !fmap_app, !fmap_cons.
      replace (analytics_key (document u req)) with (analytics_key a); [done|].
      by apply same_key_spec in Ha as ->.
    + rewrite update_first_skip by done. simpl.
      rewrite same_key_document. simpl.
      by rewrite (overwrite_document u) by apply same_key_document.
  - pose proof (update_first_None _ _ _ Hup) as Hnone.
    destruct (update_first_append _ (overwrite req) rows (document u req)
                Hup (same_key_document u req)) as [Hfind Hagain].
    split; [exact Hfind|]. split; [|split].
    + rewrite List.filter_app. simpl. rewrite same_key_document. simpl.
      by rewrite app_nil_r.
    + intros Hnd. rewrite fmap_app. apply NoDup_app. split; [done|].
      split; [|apply NoDup_singleton].
      intros k Hk ->%list_elem_of_singleton.
      apply list_elem_of_fmap in Hk as (a & Hkey & Hin).
      rewrite Forall_forall in Hnone.
      by apply (same_key_false_neq u req a (Hnone a Hin)).
    + rewrite Hagain.
      by rewrite (overwrite_document u) by apply same_key_document.
Qed.

Lemma post_analytics_upsert_witness :
  NoDup (analytics_key
           <$> post_analytics Scenario.alice food_march_again
                 (post_analytics Scenario.alice food_march [])).
Proof.
  apply (proj1 (proj2 (proj2 (post_analytics_upsert
                                Scenario.alice food_march_again
                                (post_analytics Scenario.alice
                                                food_march []))))).
  apply NoDup_singleton.
Defined.

(** *** Trends *)

Lemma foldl_insert_years (ks : list Z) (o : gmap Z YearTotals) k :
  foldl (fun o year => <[year := mkYearTotals 0 0 0 0]> o) o ks !! k
  = if decide (k ∈ ks) then Some (mkYearTotals 0 0 0 0) else o !! k.
Proof.
  revert o. induction ks as [|y ks IH]; intros o; simpl; [done|].
  rewrite IH. destruct (decide (k ∈ ks)) as [Hin|Hout].
  - rewrite decide_True; [done|]. by apply elem_of_cons; right.
  - destruct (decide (k = y)) as [->|Hne].
    + rewrite decide_True by apply list_elem_of_here.
      apply lookup_insert_eq.
    + rewrite decide_False.
      * by apply lookup_insert_ne.
      * intros [?|?]%elem_of_cons; done.
Qed.

Lemma init_years_lookup currentYear years k :
  init_years currentYear years !! k
  = if decide (startYear currentYear years <= k <= currentYear)
    then Some (mkYearTotals 0 0 0 0) else None.
Proof.
  unfold init_years. rewrite foldl_insert_years, lookup_empty.
  destruct (decide (k ∈ seqZ _ _)) as [Hin|Hout];
    rewrite elem_of_seqZ in *.
  - rewrite decide_True; [done|lia].
  - rewrite decide_False; [done|lia].
Qed.

Lemma add_year_thrown analytics : foldl add_year None analytics = None.
Proof. induction analytics as [|a l IH]; simpl; done. Qed.

Lemma yearly_fold (lo hi : Z) analytics :
  forall o,
    (forall y, is_Some (o !! y) <-> lo <= y <= hi) ->
    (Forall (fun a => lo <= ExpenseAnalytics.year a <= hi) analytics ->
     exists o', foldl add_year (Some o) analytics = Some o'
                /\ forall y, is_Some (o' !! y) <-> lo <= y <= hi)
    /\ (Exists (fun a => ~ lo <= ExpenseAnalytics.year a <= hi) analytics ->
        foldl add_year (Some o) analytics = None).
Proof.
  induction analytics as [|a l IH]; intros o Ho.
  - split; [by exists o|]. by intros ?%Exists_nil.
  - simpl. destruct (o !! ExpenseAnalytics.year a) as [row|] eqn:Hrow; simpl.
    + assert (Hin : lo <= ExpenseAnalytics.year a <= hi)
        by (apply Ho; by eexists).
      match goal with
      | |- context [foldl add_year (Some ?m) l] =>
          destruct (IH m) as [IHok IHbad]
      end.
      { intros y. destruct (decide (ExpenseAnalytics.year a = y)) as [<-|Hne].
        - rewrite lookup_insert_eq. split; [done|by eexists].
        - rewrite lookup_insert_ne by done. apply Ho. }
      split.
      * intros [_ Hl]%Forall_cons. by apply IHok.
      * intros [Ha|Hl]%Exists_cons; [done|by apply IHbad].
    + assert (Hout : ~ lo <= ExpenseAnalytics.year a <= hi).
      { intros Hin. apply Ho in Hin as [row Hsome]. congruence. }
      split.
      * intros [Ha _]%Forall_cons. done.
      * intros _. apply add_year_thrown.
Qed.

(** X21: when every row fetched lies between the start year and the current
    year, [yearlyTrends] is produced and its keys are exactly those years. *)
Theorem yearlyTrends_dense currentYear years analytics :
  Forall (fun a => startYear currentYear years <= ExpenseAnalytics.year a
                   <= currentYear) analytics ->
  exists o,
    yearlyTrends currentYear years analytics = Some o
    /\ forall y, is_Some (o !! y)
                 <-> startYear currentYear years <= y <= currentYear.
Proof.
  intros Hrows. unfold yearlyTrends.
  apply (yearly_fold (startYear currentYear years) currentYear analytics);
    [|done].
  intros y. rewrite init_years_lookup.
  destruct (decide _) as [H|H]; split; done.
Qed.

Lemma yearlyTrends_dense_witness :
  exists o,
    yearlyTrends 2025 3 [Scenario.food_plan] = Some o
    /\ is_Some (o !! 2023).
Proof.
  destruct (yearlyTrends_dense 2025 3 [Scenario.food_plan])
    as (o & Hsome & Hdom).
  - repeat constructor; simpl; unfold startYear; lia.
  - exists o. split; [exact Hsome|]. apply Hdom. unfold startYear. lia.
Defined.

(** X22: a row dated after the current year, which the query does return, has no
    entry in [yearlyTrends]: the handler throws and answers 500. *)
Theorem yearlyTrends_future_row currentYear years analytics a :
  a ∈ analytics ->
  currentYear < ExpenseAnalytics.year a ->
  yearlyTrends currentYear years analytics = None.
Proof.
  intros Hin Hfuture. unfold yearlyTrends.
  apply (yearly_fold (startYear currentYear years) currentYear analytics).
  - intros y. rewrite init_years_lookup.
    destruct (decide _) as [H|H]; split; done.
  - apply Exists_exists. exists a. split; [done|lia].
Qed.

Lemma yearlyTrends_future_row_witness :
  yearlyTrends 2025 3 [Scenario.food_plan; food_2031] = None.
Proof.
  apply (yearlyTrends_future_row 2025 3 _ food_2031).
  - apply elem_of_cons. right. apply list_elem_of_here.
  - simpl. lia.
Defined.

End AnalyticsFacts.

(** ** Budgets: update and soft deletion *)

Module BudgetFacts.
Import Query BudgetRoutes ExpenseRoutes Aggregate AggregateFacts Cases.





End BudgetFacts.

(** ** The savings plan *)

Module PlanFacts.
Import SavingsPlan Cases UpsertFacts GroupFacts.

Lemma find_other_replace (P : SavingsBudget -> bool) before x x' after :
  P x = false -> P x' = false ->
  List.find P (before ++ x' :: after) = List.find P (before ++ x :: after).
Proof.
  intros Hx Hx'. induction before as [|y before IH]; simpl.
  - by rewrite Hx, Hx'.
  - by rewrite IH.
Qed.

Lemma find_other_append (P : SavingsBudget -> bool) coll new :
  P new = false -> List.find P (coll ++ [new]) = List.find P coll.
Proof.
  intros Hnew. induction coll as [|y coll IH]; simpl.
  - by rewrite Hnew.
  - by rewrite IH.
Qed.

Lemma owned_by_other u u' b :
  u' <> u -> owned_by u b = true -> owned_by u' b = false.
Proof.
  unfold owned_by. intros Hne Hu%bool_decide_eq_true.
  apply bool_decide_eq_false. congruence.
Qed.

(** X28: after [POST /api/savings/budget] the user's budget holds the posted
    amount, whatever it held before; the budgets of other users are as they
    were; and a collection with at most one budget per user stays so. *)
Theorem savings_budget_upsert u v coll :
  get_budget u (post_budget u v coll) = Some (mkSavingsBudget v u)
  /\ (forall u', u' <> u ->
         get_budget u' (post_budget u v coll) = get_budget u' coll)
  /\ (NoDup (sb_user <$> coll) -> NoDup (sb_user <$> post_budget u v coll))
  /\ (forall v', post_budget u v (post_budget u v' coll)
                 = post_budget u v coll).
Proof.
  assert (Hset : forall w x, owned_by u x = true ->
                             set_monthlyBudget w x = mkSavingsBudget w u).
  { intros w x Hx%bool_decide_eq_true. unfold set_monthlyBudget.
    by rewrite Hx. }
  assert (Hnew : forall w, owned_by u (mkSavingsBudget w u) = true).
  { intros w. by apply bool_decide_eq_true. }
  unfold post_budget, get_budget.
  destruct (update_first (owned_by u) (set_monthlyBudget v) coll)
    as [coll'|] eqn:Hup.
  - apply update_first_Some in Hup
      as (before & x & after & -> & -> & Hx & Hbefore).
    rewrite Hset by done.
    split; [|split; [|split]].
    + rewrite find_skip by done. simpl. by rewrite Hnew.
    + intros u' Hne. apply find_other_replace.
      * by apply (owned_by_other u).
      * by apply (owned_by_other u).
    + rewrite !fmap_app, !fmap_cons. simpl.
      by apply bool_decide_eq_true in Hx as ->.
    + intros v'. rewrite !update_first_skip by done. simpl.
      rewrite Hx. simpl. rewrite update_first_skip by done. simpl.
      rewrite Hset by done. rewrite Hnew. simpl. by rewrite Hset.
  - pose proof (update_first_None _ _ _ Hup) as Hnone.
    destruct (update_first_append _ (set_monthlyBudget v) coll
                (mkSavingsBudget v u) Hup (Hnew v)) as [Hfind _].
    split; [exact Hfind|]. split; [|split].
    + intros u' Hne. apply find_other_append.
      by apply (owned_by_other u).
    + intros Hnd. rewrite fmap_app. apply NoDup_app. split; [done|].
      split; [|apply NoDup_singleton].
      intros k Hk ->%list_elem_of_singleton.
      apply list_elem_of_fmap in Hk as (b & Hkey & Hin).
      rewrite Forall_forall in Hnone. specialize (Hnone b Hin).
      apply bool_decide_eq_false in Hnone. simpl in Hkey. congruence.
    + intros v'.
      assert (Hup' : update_first (owned_by u) (set_monthlyBudget v') coll
                     = None).
      { clear -Hnone. induction Hnone as [|y l Hy _ IH]; simpl; [done|].
        by rewrite Hy, IH. }
      rewrite Hup'.
      destruct (update_first_append _ (set_monthlyBudget v) coll
                  (mkSavingsBudget v' u) Hup (Hnew v')) as [_ Hagain].
      rewrite Hagain. by rewrite Hset.
Qed.

Lemma savings_budget_upsert_witness :
  NoDup (sb_user
           <$> post_budget Scenario.alice 900
                 (post_budget Scenario.bob 400
                    (post_budget Scenario.alice 500 []))).
Proof.
  apply (proj1 (proj2 (proj2 (savings_budget_upsert
                                Scenario.alice 900
                                (post_budget Scenario.bob 400
                                   (post_budget Scenario.alice 500 [])))))).
  apply NoDup_cons. split.
  - intros [Heq|Hin]%elem_of_cons; [discriminate Heq|].
    by apply elem_of_nil in Hin.
  - apply NoDup_singleton.
Defined.



(** X27: a planned expense is deleted only by its owner: for anyone else update
    and deletion answer 404 and change nothing; after the owner's deletion
    the document is gone, the others are as they were, and a further update
    or deletion answers 404. *)
Theorem savings_expense_owner_only u id coll e :
  coll !! id = Some e ->
  (SavingsExpense.user e <> u ->
   delete_expense u id coll = (NotFound404, coll)
   /\ forall body, SavingsRoutes.put_expense u id body coll
                   = (NotFound404, coll))
  /\ (SavingsExpense.user e = u ->
      (delete_expense u id coll).1 = Ok200
      /\ (delete_expense u id coll).2 !! id = None
      /\ (forall id', id' <> id ->
             (delete_expense u id coll).2 !! id' = coll !! id')
      /\ delete_expense u id (delete_expense u id coll).2
         = (NotFound404, (delete_expense u id coll).2)
      /\ forall body,
          SavingsRoutes.put_expense u id body (delete_expense u id coll).2
          = (NotFound404, (delete_expense u id coll).2)).
Proof.
  intros He. split.
  - intros Hu. unfold delete_expense, SavingsRoutes.put_expense.
    by rewrite He, bool_decide_eq_false_2.
  - intros Hu.
    assert (Hdel : delete_expense u id coll = (Ok200, delete id coll)).
    { unfold delete_expense. by rewrite He, bool_decide_eq_true_2. }
    rewrite Hdel. simpl.
    split; [done|]. split; [apply lookup_delete_eq|].
    split; [intros id' Hne; by apply lookup_delete_ne|].
    unfold delete_expense, SavingsRoutes.put_expense.
    by rewrite lookup_delete_eq.
Qed.

Lemma savings_expense_owner_only_witness :
  delete_expense Scenario.bob 0 rent_only = (NotFound404, rent_only)
  /\ (delete_expense Scenario.alice 0 rent_only).2 !! 0%nat = None.
Proof.
  destruct (savings_expense_owner_only Scenario.bob 0%nat rent_only
              (SavingsExpense.mk "Rent" 100 1200 Scenario.alice) eq_refl)
    as [Hother _].
  destruct (savings_expense_owner_only Scenario.alice 0%nat rent_only
              (SavingsExpense.mk "Rent" 100 1200 Scenario.alice) eq_refl)
    as [_ Hown].
  split.
  - apply Hother. discriminate.
  - apply (Hown eq_refl).
Defined.

(** X25: a planned expense is created under an id that was free, with
    [perYear = perMonth * 12], and no document already stored is touched. *)
Theorem savings_post_expense_fresh u req (coll : gmap nat SavingsExpense.t) :
  coll !! (SavingsRoutes.post_expense u req coll).1.2 = None
  /\ (SavingsRoutes.post_expense u req coll).2
       !! (SavingsRoutes.post_expense u req coll).1.2
     = Some (SavingsExpense.mk (SavingsRoutes.ns_category req)
                               (SavingsRoutes.ns_perMonth req)
                               (SavingsRoutes.ns_perMonth req * 12) u)
  /\ (forall id e, coll !! id = Some e ->
                   (SavingsRoutes.post_expense u req coll).2 !! id = Some e).
Proof.
  unfold SavingsRoutes.post_expense. simpl.
  assert (Hfresh : coll !! fresh (dom coll) = None).
  { apply not_elem_of_dom. apply is_fresh. }
  split; [exact Hfresh|]. split; [apply lookup_insert_eq|].
  intros id e He. rewrite lookup_insert_ne; [done|]. congruence.
Qed.

Lemma savings_post_expense_fresh_witness :
  (SavingsRoutes.post_expense Scenario.bob Scenario.rent rent_only).2 !! 0%nat
  = Some (SavingsExpense.mk "Rent" 100 1200 Scenario.alice).
Proof.
  apply (proj2 (proj2 (savings_post_expense_fresh
                         Scenario.bob Scenario.rent rent_only))).
  reflexivity.
Defined.

End PlanFacts.

(** ** Whose budgets the notifications are about *)

Module NoticeFacts.
Import Dashboard Cases.








End NoticeFacts.

(** ** The earlier lemmas at concrete inputs *)

Module Instances.
Import Cases.





End Instances.
